(** * The benchmark harness of nova (bench.py)

  The harness is a Python script: it parses three options, redirects the
  solver's database through the environment variable DATABASE, optionally
  profiles one heavy variant, times the solver [samples] times on each of
  four variants, prints a mean per variant, restores DATABASE and dumps the
  measurements into a file named after the current time.

  The script is embedded as a computation in a small state-and-exception
  monad.  Everything the script cannot decide itself (the clock, the result
  of each child process, whether the output file can be opened) comes from a
  [World]; everything it does to the outside is appended to a trace.

  The script is run twice.  Modules [Sys] and [Bench] give the run in which
  every call of subprocess.run returns, with a trace that leaves the clock
  out.  Module [Full] gives the same script with the readings of the clock
  in the trace and with the calls of subprocess.run that raise instead of
  returning; without such calls and without the readings it is the first
  run (lemma [full_main_refines]). *)

From Stdlib Require Import List String Ascii ZArith Lia Bool Arith.
From Stdlib Require Import PrimFloat.
From Stdlib Require Uint63.
Import ListNotations.
Local Open Scope string_scope.

(* ================================================================== *)
(** * Python values and builtins used by the script *)
(* ================================================================== *)

Module Py.

(** The exceptions the builtins below can raise. *)
Inductive exn : Type :=
| ZeroDivisionError
| KeyError (key : string)
| AttributeError
| TypeError
| OSError (path : string)
| FileNotFoundError (program : string)
| UnicodeDecodeError.

(** A [dict] with [str] keys keeps its keys in insertion order; assigning
    to a key that is present keeps the key where it is. *)
Definition dict (V : Type) : Type := list (string * V).

Fixpoint getitem {V : Type} (d : dict V) (k : string) : option V :=
  match d with
  | [] => None
  | (k', v) :: d' => if String.eqb k' k then Some v else getitem d' k
  end.

Fixpoint setitem {V : Type} (d : dict V) (k : string) (v : V) : dict V :=
  match d with
  | [] => [(k, v)]
  | (k', v') :: d' =>
      if String.eqb k' k then (k', v) :: d' else (k', v') :: setitem d' k v
  end.

Definition keys {V : Type} (d : dict V) : list string := map fst d.

(** [d.get(k, default)] *)
Definition get {V : Type} (d : dict V) (k : string) (default : V) : V :=
  match getitem d k with
  | Some v => v
  | None => default
  end.

(** [bool(s)] on a [str]: true exactly when [len(s)] is not zero.  This is
    the conversion [argparse] applies for [type=bool]. *)
Definition bool_of_str (s : string) : bool :=
  negb (Nat.eqb (String.length s) 0).

(** [range(n)]: empty when [n <= 0]. *)
Definition range (n : Z) : list Z := map Z.of_nat (seq 0 (Z.to_nat n)).

(** Python floats are IEEE binary64 numbers, as the primitive floats are. *)
Definition float_of_len (n : nat) : float :=
  PrimFloat.of_uint63 (Uint63.of_Z (Z.of_nat n)).

(** [sum(m)] on a list of floats, added from the left starting from the
    integer [0].  (Recent interpreters carry a compensation term along,
    which can change the last bits of the result; nothing below depends on
    the bits.) *)
Definition sum (m : list float) : float :=
  fold_left PrimFloat.add m 0%float.

(** [x / n] for [n = len(m)]: a zero divisor raises, whatever [x] is. *)
Definition truediv (x : float) (n : nat) : exn + float :=
  if Nat.eqb n 0 then inl ZeroDivisionError
  else inr (PrimFloat.div x (float_of_len n)).

(** The double quote character, for string literals that contain it. *)
Definition dquote : string := String (ascii_of_nat 34) "".

End Py.

(* ================================================================== *)
(** * datetime: naive local date and time, and strftime *)
(* ================================================================== *)

Module Datetime.

Record datetime : Type := mk_datetime {
  year : Z; month : Z; day : Z;
  hour : Z; minute : Z; second : Z;
  microsecond : Z
}.

(** The calendar arithmetic of the standard library's datetime module. *)
Definition is_leap (y : Z) : bool :=
  ((y mod 4 =? 0) && (negb (y mod 100 =? 0) || (y mod 400 =? 0)))%Z%bool.

Definition days_in_month (y m : Z) : Z :=
  if ((m =? 2) && is_leap y)%Z%bool then 29%Z
  else nth (Z.to_nat m) [0; 31; 28; 31; 30; 31; 30; 31; 31; 30; 31; 30; 31]%Z 0%Z.

Definition days_before_month (y m : Z) : Z :=
  (nth (Z.to_nat m) [0; 0; 31; 59; 90; 120; 151; 181; 212; 243; 273; 304; 334] 0
   + (if ((2 <? m) && is_leap y)%bool then 1 else 0))%Z.

Definition days_before_year (y : Z) : Z :=
  (let y' := y - 1 in y' * 365 + y' / 4 - y' / 100 + y' / 400)%Z.

(** [d.toordinal()]: 1 for the first of January of year 1. *)
Definition toordinal (d : datetime) : Z :=
  (days_before_year (year d) + days_before_month (year d) (month d) + day d)%Z.

(** The fields a [datetime] object can hold (MINYEAR = 1, MAXYEAR = 9999,
    no leap seconds). *)
Definition valid (d : datetime) : Prop :=
  (1 <= year d <= 9999 /\ 1 <= month d <= 12 /\
   1 <= day d <= days_in_month (year d) (month d) /\
   0 <= hour d < 24 /\ 0 <= minute d < 60 /\ 0 <= second d < 60 /\
   0 <= microsecond d < 1000000)%Z.

(** Microseconds since the start of day 0: [(d - datetime.min)] measured in
    microseconds, up to the constant of one day. *)
Definition total_microseconds (d : datetime) : Z :=
  ((((toordinal d * 24 + hour d) * 60 + minute d) * 60 + second d) * 1000000
   + microsecond d)%Z.

Definition digit (n : Z) : ascii := ascii_of_nat (48 + Z.to_nat (n mod 10)).

(** A number as [width] decimal digits, padded with zeros on the left. *)
Fixpoint zero_padded (width : nat) (n : Z) : string :=
  match width with
  | O => ""
  | S w => zero_padded w (n / 10) ++ String (digit n) ""
  end.

(** The directives the script uses; any other one is left as it is. *)
Definition directive (d : datetime) (c : ascii) : string :=
  if Ascii.eqb c "Y" then zero_padded 4 (year d)
  else if Ascii.eqb c "m" then zero_padded 2 (month d)
  else if Ascii.eqb c "d" then zero_padded 2 (day d)
  else if Ascii.eqb c "H" then zero_padded 2 (hour d)
  else if Ascii.eqb c "M" then zero_padded 2 (minute d)
  else if Ascii.eqb c "S" then zero_padded 2 (second d)
  else String "%" (String c "").

Fixpoint strftime (d : datetime) (fmt : string) : string :=
  match fmt with
  | "" => ""
  | String c rest =>
      if Ascii.eqb c "%" then
        match rest with
        | "" => String c ""
        | String c' rest' => directive d c' ++ strftime d rest'
        end
      else String c (strftime d rest)
  end.

End Datetime.

(* ================================================================== *)
(** * The process: world, state, trace, and the monad *)
(* ================================================================== *)

Module Proc.
Import Py.

(** What [subprocess.run] returns.  The programs the script starts (cargo,
    sqlite3) are taken to be installed, so that a call returns a
    [CompletedProcess] whatever the child did: a crash of the child shows
    as a negative [returncode], a failure as a positive one.  (The calls
    that do not return are in module [Full].) *)
Record CompletedProcess : Type := {
  returncode : Z;
  stdout : string;
  stderr : string
}.

(** Everything the script reads from outside. *)
Record World : Type := {
  clock : nat -> float;                (* the k-th reading of time.time() *)
  child : nat -> CompletedProcess;     (* how the k-th child process ends *)
  wall_clock : Datetime.datetime;      (* what datetime.now() returns *)
  can_open : string -> bool            (* whether open(path, "w") succeeds *)
}.

(** The values stored in the measurements dictionary. *)
Inductive JValue : Type :=
| Samples (m : list float)
| Text (s : string).

(** What the script prints itself. *)
Inductive Line : Type :=
| Acknowledged (note : string) (samples : Z) (profile : bool)
| ZeroBy (v : string) (mean : float).

(** What the script does to the outside, in the order it does it.  The
    readings of the clock are left out of the trace by [Sys.time_time] and
    kept by [Full.time_time]. *)
Inductive Event : Type :=
| Print (l : Line)
| Run (argv : list string) (capture_output : bool)
| Shown (out err : string)             (* output of a child, not captured *)
| SetEnv (k v : string)
| Open (path : string)
| Dump (path : string) (obj : dict JValue)
| Clock (k : nat).                     (* the k-th reading of the clock *)

Record State : Type := {
  environ : dict string;
  trace : list Event;
  ticks : nat;                         (* readings of the clock so far *)
  spawned : nat                        (* child processes started so far *)
}.

Inductive Result (A : Type) : Type :=
| Ok (a : A)
| Raise (e : exn).
Arguments Ok {A} a.
Arguments Raise {A} e.

(** A computation reads the world, changes the state, and returns a value
    or raises.  The state survives an exception: nothing is rolled back. *)
Definition M (A : Type) : Type := World -> State -> Result A * State.

Definition ret {A : Type} (a : A) : M A := fun _ st => (Ok a, st).

Definition bind {A B : Type} (c : M A) (k : A -> M B) : M B :=
  fun w st =>
    match c w st with
    | (Ok a, st') => k a w st'
    | (Raise e, st') => (Raise e, st')
    end.

Definition raise {A : Type} (e : exn) : M A := fun _ st => (Raise e, st).

Definition emit (e : Event) : M unit :=
  fun _ st =>
    (Ok tt, {| environ := environ st; trace := trace st ++ [e];
               ticks := ticks st; spawned := spawned st |}).

Definition lift {A : Type} (r : exn + A) : M A :=
  match r with
  | inl e => raise e
  | inr a => ret a
  end.

End Proc.

Declare Scope proc_scope.
Delimit Scope proc_scope with proc.
Notation "x <- c ;; k" := (Proc.bind c (fun x => k))
(at level 61, c at next level, right associativity) : proc_scope.
Notation "c ;; k" := (Proc.bind c (fun _ => k))
(at level 61, right associativity) : proc_scope.
Local Open Scope proc_scope.

Module Sys.
Import Py Proc.

(** [print(...)] *)
Definition print (l : Line) : M unit := emit (Print l).

(** [os.environ.get(k, default)] *)
Definition environ_get (k default : string) : M string :=
  fun _ st => (Ok (get (environ st) k default), st).

(** [os.environ[k] = v] *)
Definition environ_set (k v : string) : M unit :=
  fun _ st =>
    (Ok tt, {| environ := setitem (environ st) k v;
               trace := trace st ++ [SetEnv k v];
               ticks := ticks st; spawned := spawned st |}).

(** [time.time()] *)
Definition time_time : M float :=
  fun w st =>
    (Ok (clock w (ticks st)),
     {| environ := environ st; trace := trace st;
        ticks := S (ticks st); spawned := spawned st |}).

(** [subprocess.run(argv, capture_output=..., text=True)], without
    [check=True]: the call waits for the child and returns, whatever the
    return code.  Without [capture_output] the child writes to the
    terminal of the script. *)
Definition subprocess_run (argv : list string) (capture_output : bool)
  : M CompletedProcess :=
  fun w st =>
    let cp := child w (spawned st) in
    (Ok cp,
     {| environ := environ st;
        trace := trace st ++ Run argv capture_output ::
                   (if capture_output then []
                    else [Shown (stdout cp) (stderr cp)]);
        ticks := ticks st; spawned := S (spawned st) |}).

(** [datetime.now()] *)
Definition datetime_now : M Datetime.datetime :=
  fun w st => (Ok (wall_clock w), st).

(** [open(path, "w")] *)
Definition open_w (path : string) : M unit :=
  fun w st =>
    if can_open w path then emit (Open path) w st
    else (Raise (OSError path), st).

(** [json.dump(obj, f)] on the file opened at [path]. *)
Definition json_dump (obj : dict JValue) (path : string) : M unit :=
  emit (Dump path obj).

(** [for x in l: body], threading the variables the body assigns. *)
Fixpoint for_each {A S : Type} (l : list A) (body : A -> S -> M S) (s : S)
  : M S :=
  match l with
  | [] => ret s
  | x :: l' => s' <- body x s ;; for_each l' body s'
  end.

End Sys.

(* ================================================================== *)
(** * The script *)
(* ================================================================== *)

Module Bench.
Import Py Proc Sys.

Definition sqlite3_argv : list string :=
  ["sqlite3"; "bench.db"; dquote ++ "VACUUM;" ++ dquote].

Definition init_bench_database : M unit :=
  _ <- subprocess_run sqlite3_argv true ;;
  ret tt.

Definition solve_argv (variant : string) : list string :=
  ["cargo"; "run"; "--"; "build"; "zero-by";
   "--variant=" ++ variant; "--mode=overwrite"].

Definition solve_zero_by (variant : string) : M unit :=
  _ <- subprocess_run (solve_argv variant) true ;;
  ret tt.

Definition flamegraph_argv (variant : string) : list string :=
  ["cargo"; "flamegraph"; "--root=-E"; "--bin"; "nova"; "--";
   "build"; "zero-by"; "--variant=" ++ variant; "--mode=overwrite"].

Definition flamegraph (variant : string) : M unit :=
  _ <- subprocess_run (flamegraph_argv variant) false ;;
  ret tt.

(** ** Command line parsing *)

Record Args : Type := {
  note : string;
  samples : Z;
  profile : bool
}.

(** The invocation surface after argparse has split it: for each option,
    the string given with it, if the option was given. *)
Record Supplied : Type := {
  given_note : option string;
  given_samples : option string;
  given_profile : option string
}.

Section Parser.
(** [int(s)], the conversion of [--samples]; [None] when it raises. *)
Variable int_of_str : string -> option Z.

(** [parser.parse_args()]: [None] when argparse rejects the line. *)
Definition parse_args (cli : Supplied) : option Args :=
  let note :=
    match given_note cli with Some s => s | None => "No note." end in
  let samples :=
    match given_samples cli with Some s => int_of_str s | None => Some 3%Z end in
  let profile :=
    match given_profile cli with Some s => bool_of_str s | None => false end in
  match samples with
  | Some n => Some {| note := note; samples := n; profile := profile |}
  | None => None
  end.
End Parser.

(** ** Declarations *)

Definition variants : list string :=
  ["2-10000-1-2"; "2-10000-3-5-7-11"; "4-10000-1-2"; "4-10000-3-5-7-11"].

Definition heavy_variant : string := "2-100000-1-2".

(** ** Benchmarks *)

(** [measurements[v].append(elapsed)]: the list is changed in place, and
    the dictionary is the only holder of it. *)
Definition append_sample (measurements : dict JValue) (v : string)
  (elapsed : float) : M (dict JValue) :=
  match getitem measurements v with
  | None => raise (KeyError v)
  | Some (Samples m) => ret (setitem measurements v (Samples (m ++ [elapsed])))
  | Some (Text _) => raise AttributeError
  end.

(** The body of the inner loop. *)
Definition sample (v : string) (_ : Z) (measurements : dict JValue)
  : M (dict JValue) :=
  start <- time_time ;;
  solve_zero_by v ;;
  stop <- time_time ;;
  let elapsed := PrimFloat.sub stop start in
  append_sample measurements v elapsed.

(** [sum(m) / len(m)] for [m = measurements[v]]. *)
Definition mean_of (measurements : dict JValue) (v : string) : M float :=
  match getitem measurements v with
  | None => raise (KeyError v)
  | Some (Samples m) => lift (truediv (sum m) (List.length m))
  | Some (Text _) => raise TypeError
  end.

(** The body of the outer loop. *)
Definition benchmark (samples : Z) (v : string) (measurements : dict JValue)
  : M (dict JValue) :=
  let measurements := setitem measurements v (Samples []) in
  measurements <- for_each (range samples) (sample v) measurements ;;
  mean <- mean_of measurements v ;;
  print (ZeroBy v mean) ;;
  ret measurements.

Definition stamp_format : string := "%Y-%m-%d_%H-%M-%S".

Definition filename (now : Datetime.datetime) : string :=
  "dev/bench/" ++ Datetime.strftime now stamp_format ++ ".json".

(** The section BENCHMARKS of the script: [measurements = {}] and the loop
    over the variants. *)
Definition benchmarks (samples : Z) : M (dict JValue) :=
  for_each variants (benchmark samples) [].

(** ** The script body, after the options are parsed *)
Definition main (args : Args) : M unit :=
  print (Acknowledged (note args) (samples args) (profile args)) ;;
  let samples := samples args in
  db <- environ_get "DATABASE" "solutions.db" ;;
  environ_set "DATABASE" "bench.db" ;;
  (if profile args then flamegraph heavy_variant else ret tt) ;;
  measurements <- benchmarks samples ;;
  environ_set "DATABASE" db ;;
  now <- datetime_now ;;
  let path := filename now in
  open_w path ;;
  let measurements := setitem measurements "note" (Text (note args)) in
  json_dump measurements path.

End Bench.

(* ================================================================== *)
(** * Vocabulary of the statements *)
(* ================================================================== *)

Module Spec.
Import Py Proc Sys Bench.

(** A process starts with its environment, and has done nothing yet. *)
Definition initial (env : dict string) : State :=
  {| environ := env; trace := []; ticks := 0; spawned := 0 |}.

(** The time between the clock readings [t] and [t + 1]. *)
Definition elapsed (w : World) (t : nat) : float :=
  PrimFloat.sub (clock w (S t)) (clock w t).

(** The elapsed times of [count] repetitions in a row, the first of which
    reads the clock for the [t]-th time. *)
Fixpoint elapsed_from (w : World) (t count : nat) : list float :=
  match count with
  | O => []
  | S c => elapsed w t :: elapsed_from w (S (S t)) c
  end.

(** The arithmetic mean of a sequence of samples: sum divided by count. *)
Definition mean (m : list float) : float :=
  PrimFloat.div (sum m) (float_of_len (List.length m)).

(** The measurements of [count] repetitions on each variant of [vs]. *)
Fixpoint measured (w : World) (count t : nat) (vs : list string)
  : dict JValue :=
  match vs with
  | [] => []
  | v :: vs' =>
      (v, Samples (elapsed_from w t count)) :: measured w count (t + 2 * count) vs'
  end.

(** What the sampling of the variants [vs] leaves in the trace. *)
Fixpoint sampling_trace (w : World) (count t : nat) (vs : list string)
  : list Event :=
  match vs with
  | [] => []
  | v :: vs' =>
      repeat (Run (solve_argv v) true) count
        ++ Print (ZeroBy v (mean (elapsed_from w t count)))
        :: sampling_trace w count (t + 2 * count) vs'
  end.

(** The sample sequence recorded under [v], if there is one. *)
Definition samples_of (d : dict JValue) (v : string) : option (list float) :=
  match getitem d v with
  | Some (Samples m) => Some m
  | _ => None
  end.

(** The child processes of a trace: command line and whether the output
    was captured, in the order they were started. *)
Fixpoint runs (tr : list Event) : list (list string * bool) :=
  match tr with
  | [] => []
  | Run argv capture :: tr' => (argv, capture) :: runs tr'
  | _ :: tr' => runs tr'
  end.

(** The objects written by [json.dump], with the file each went to. *)
Fixpoint dumps (tr : list Event) : list (string * dict JValue) :=
  match tr with
  | [] => []
  | Dump path obj :: tr' => (path, obj) :: dumps tr'
  | _ :: tr' => dumps tr'
  end.

(** The output of child processes that reached the terminal. *)
Fixpoint shown (tr : list Event) : list (string * string) :=
  match tr with
  | [] => []
  | Shown out err :: tr' => (out, err) :: shown tr'
  | _ :: tr' => shown tr'
  end.

(** What the optional profiling pass leaves in the trace: one run of the
    profiler, not captured, and what that child wrote on the terminal. *)
Definition profiling_trace (profile : bool) (w : World) : list Event :=
  if profile then
    [Run (flamegraph_argv heavy_variant) false;
     Shown (stdout (child w 0)) (stderr (child w 0))]
  else [].

(** The trace of the script up to the end of the sampling. *)
Definition sampled_trace (args : Args) (w : World) : list Event :=
  Print (Acknowledged (note args) (samples args) (profile args))
    :: SetEnv "DATABASE" "bench.db"
    :: (profiling_trace (profile args) w
          ++ sampling_trace w (Z.to_nat (samples args)) 0 variants)%list.

(** The dictionary that the script dumps. *)
Definition record (args : Args) (w : World) : dict JValue :=
  (measured w (Z.to_nat (samples args)) 0 variants
     ++ [("note", Text (note args))])%list.

(** The solver runs of [count] repetitions on each variant of [vs]. *)
Definition solver_runs (count : nat) (vs : list string)
  : list (list string * bool) :=
  flat_map (fun v => repeat (solve_argv v, true) count) vs.

(** The runs of the profiling pass. *)
Definition profiler_runs (profile : bool) : list (list string * bool) :=
  if profile then [(flamegraph_argv heavy_variant, false)] else [].

(** Variant after variant: [count] captured solver runs, then the print of
    the mean of the sequence that [d] records for that variant. *)
Definition progress (count : nat) (d : dict JValue) (vs : list string)
  : list Event :=
  flat_map
    (fun v =>
       repeat (Run (solve_argv v) true) count
         ++ match samples_of d v with
            | Some m => [Print (ZeroBy v (mean m))]
            | None => []
            end)%list
    vs.

(** The same world, with other child processes. *)
Definition with_children (w : World) (ch : nat -> CompletedProcess) : World :=
  {| clock := clock w; child := ch;
     wall_clock := wall_clock w; can_open := can_open w |}.

(** The date and time fields that the file name shows, compared field by
    field from the year down to the second. *)
Definition fields (d : Datetime.datetime) : list Z :=
  [Datetime.year d; Datetime.month d; Datetime.day d;
   Datetime.hour d; Datetime.minute d; Datetime.second d].

Fixpoint fields_lt (a b : list Z) : Prop :=
  match a, b with
  | x :: a', y :: b' => (x < y)%Z \/ (x = y /\ fields_lt a' b')
  | _, _ => False
  end.

Fixpoint fields_compare (a b : list Z) : comparison :=
  match a, b with
  | x :: a', y :: b' =>
      match (x ?= y)%Z with
      | Eq => fields_compare a' b'
      | c => c
      end
  | _, _ => Eq
  end.

(** Year, month and day of [a] come before those of [b]. *)
Definition date_lt (a b : Datetime.datetime) : Prop :=
  fields_lt [Datetime.year a; Datetime.month a; Datetime.day a]
            [Datetime.year b; Datetime.month b; Datetime.day b].

End Spec.

(* ================================================================== *)
(** * Sample inputs *)
(* ================================================================== *)

Module Examples.
Import Py Proc Sys Bench Spec.

(** A world whose clock reads 0, 1, 4, 9, ... seconds, whose children all
    fail with return code 1, on the ninth of March 2024. *)
Definition world : World :=
  {| clock := fun k => float_of_len (k * k);
     child := fun _ => {| returncode := 1; stdout := "out"; stderr := "err" |};
     wall_clock := Datetime.mk_datetime 2024 3 9 7 5 1 250000;
     can_open := fun _ => true |}.

Definition default_args : Args :=
  {| note := "No note."; samples := 3; profile := false |}.

Definition no_samples : Args :=
  {| note := "No note."; samples := 0; profile := true |}.

(** A conversion of [--samples] that knows the numeral "2" only. *)
Definition int_of_digit_str (s : string) : option Z :=
  if String.eqb s "2" then Some 2%Z else None.

(** [--samples 2 --profile False] *)
Definition profile_False : Supplied :=
  {| given_note := None; given_samples := Some "2";
     given_profile := Some "False" |}.

(** The last second of 2023 and the first one of 2024. *)
Definition new_years_eve : Datetime.datetime :=
  Datetime.mk_datetime 2023 12 31 23 59 59 500000.

Definition new_year : Datetime.datetime :=
  Datetime.mk_datetime 2024 1 1 0 0 0 500000.

End Examples.

(* ================================================================== *)
(** * Further observations of a trace *)
(* ================================================================== *)

Module Observe.
Import Py Proc Sys Bench Spec.

(** The assignments to environment variables, in order. *)
Fixpoint setenvs (tr : list Event) : list (string * string) :=
  match tr with
  | [] => []
  | SetEnv k v :: tr' => (k, v) :: setenvs tr'
  | _ :: tr' => setenvs tr'
  end.

(** The files opened for writing, in order. *)
Fixpoint opens (tr : list Event) : list string :=
  match tr with
  | [] => []
  | Open path :: tr' => path :: opens tr'
  | _ :: tr' => opens tr'
  end.

(** The value of DATABASE after the assignments of a trace, given its
    value [db] before ([None] when it is unset). *)
Fixpoint database_after (db : option string) (tr : list Event)
  : option string :=
  match tr with
  | [] => db
  | SetEnv k v :: tr' =>
      database_after (if String.eqb k "DATABASE" then Some v else db) tr'
  | _ :: tr' => database_after db tr'
  end.

(** Every child process of a trace with the value of DATABASE that is in
    force when it is started, and that it therefore inherits. *)
Fixpoint runs_under (db : option string) (tr : list Event)
  : list (list string * option string) :=
  match tr with
  | [] => []
  | SetEnv k v :: tr' =>
      runs_under (if String.eqb k "DATABASE" then Some v else db) tr'
  | Run argv _ :: tr' => (argv, db) :: runs_under db tr'
  | _ :: tr' => runs_under db tr'
  end.

(** The characters of a time stamp: decimal digits, "-" and "_". *)
Definition stamp_char (c : ascii) : bool :=
  let n := nat_of_ascii c in
  ((48 <=? n) && (n <=? 57) || Ascii.eqb c "-" || Ascii.eqb c "_")%nat%bool.

Fixpoint string_forallb (p : ascii -> bool) (s : string) : bool :=
  match s with
  | EmptyString => true
  | String c s' => p c && string_forallb p s'
  end.

(** The sample world, with an output directory that cannot be written. *)
Definition read_only_world : World :=
  {| clock := clock Examples.world; child := child Examples.world;
     wall_clock := wall_clock Examples.world;
     can_open := fun _ => false |}.

(** Two times within one second, and the sample time one hour later. *)
Definition noon : Datetime.datetime :=
  Datetime.mk_datetime 2024 2 29 12 0 0 0.

Definition just_after_noon : Datetime.datetime :=
  Datetime.mk_datetime 2024 2 29 12 0 0 999999.

Definition one_o_clock : Datetime.datetime :=
  Datetime.mk_datetime 2024 2 29 13 0 0 0.

(** A dictionary that already holds a sequence for the first variant. *)
Definition stale : dict JValue :=
  [("2-10000-1-2", Samples [7%float]); ("other", Text "kept")].

End Observe.

(* ================================================================== *)
(** * The script in full: clock readings and calls that do not return *)
(* ================================================================== *)

(** The run above is the run in which every call of [subprocess.run]
    returns, and its trace leaves the clock out.  Here the same script is
    run with the readings of the clock in the trace and with the two ways
    in which [subprocess.run] raises instead of returning. *)
Module Full.
Import Py Proc Sys Bench.

(** Why a call of [subprocess.run] does not return: the program is not
    found (FileNotFoundError, before any child is started), or the captured
    output of the child does not decode as text (UnicodeDecodeError, after
    the child has run). *)
Inductive Fault : Type :=
| ProgramMissing
| OutputUndecodable.

Section Faults.
(** What goes wrong with the k-th call, if anything. *)
Variable fault : nat -> option Fault.

(** [time.time()] *)
Definition time_time : M float :=
  fun w st =>
    (Ok (clock w (ticks st)),
     {| environ := environ st; trace := trace st ++ [Clock (ticks st)];
        ticks := S (ticks st); spawned := spawned st |}).

(** [subprocess.run(argv, capture_output=..., text=...)], without
    [check=True].  The output is decoded only when it is captured as text;
    output that is not captured goes to the terminal as it is. *)
Definition subprocess_run (argv : list string) (capture_output text : bool)
  : M CompletedProcess :=
  fun w st =>
    let cp := child w (spawned st) in
    let started :=
      {| environ := environ st; trace := trace st ++ [Run argv capture_output];
         ticks := ticks st; spawned := S (spawned st) |} in
    let returned :=
      if capture_output then (Ok cp, started)
      else (Ok cp,
            {| environ := environ st;
               trace := trace started ++ [Shown (stdout cp) (stderr cp)];
               ticks := ticks st; spawned := S (spawned st) |}) in
    match fault (spawned st) with
    | Some ProgramMissing => (Raise (FileNotFoundError (hd "" argv)), st)
    | Some OutputUndecodable =>
        if (capture_output && text)%bool then (Raise UnicodeDecodeError, started)
        else returned
    | None => returned
    end.

Definition init_bench_database : M unit :=
  _ <- subprocess_run sqlite3_argv true true ;;
  ret tt.

Definition solve_zero_by (variant : string) : M unit :=
  _ <- subprocess_run (solve_argv variant) true true ;;
  ret tt.

Definition flamegraph (variant : string) : M unit :=
  _ <- subprocess_run (flamegraph_argv variant) false false ;;
  ret tt.

(** The body of the inner loop. *)
Definition sample (v : string) (_ : Z) (measurements : dict JValue)
  : M (dict JValue) :=
  start <- time_time ;;
  solve_zero_by v ;;
  stop <- time_time ;;
  let elapsed := PrimFloat.sub stop start in
  append_sample measurements v elapsed.

(** The body of the outer loop. *)
Definition benchmark (samples : Z) (v : string) (measurements : dict JValue)
  : M (dict JValue) :=
  let measurements := setitem measurements v (Samples []) in
  measurements <- for_each (range samples) (sample v) measurements ;;
  mean <- mean_of measurements v ;;
  print (ZeroBy v mean) ;;
  ret measurements.

Definition benchmarks (samples : Z) : M (dict JValue) :=
  for_each variants (benchmark samples) [].

(** The script body, after the options are parsed. *)
Definition main (args : Args) : M unit :=
  print (Acknowledged (note args) (samples args) (profile args)) ;;
  let samples := samples args in
  db <- environ_get "DATABASE" "solutions.db" ;;
  environ_set "DATABASE" "bench.db" ;;
  (if profile args then flamegraph heavy_variant else ret tt) ;;
  measurements <- benchmarks samples ;;
  environ_set "DATABASE" db ;;
  now <- datetime_now ;;
  let path := filename now in
  open_w path ;;
  let measurements := setitem measurements "note" (Text (note args)) in
  json_dump measurements path.

End Faults.

(** Every call returns. *)
Definition healthy : nat -> option Fault := fun _ => None.

End Full.

Module FullSpec.
Import Py Proc Sys Bench Spec Observe.

(** [count] repetitions in a row: a reading of the clock, a captured run of
    [argv], a reading of the clock. *)
Fixpoint timed_runs (argv : list string) (t count : nat) : list Event :=
  match count with
  | O => []
  | S c => Clock t :: Run argv true :: Clock (S t) :: timed_runs argv (S (S t)) c
  end.

(** What the sampling of the variants [vs] leaves in the full trace when
    every call returns. *)
Fixpoint timed_sampling (w : World) (count t : nat) (vs : list string)
  : list Event :=
  match vs with
  | [] => []
  | v :: vs' =>
      (timed_runs (solve_argv v) t count
         ++ Print (ZeroBy v (mean (elapsed_from w t count)))
         :: timed_sampling w count (t + 2 * count) vs')%list
  end.

(** A trace without the readings of the clock. *)
Fixpoint unclocked (tr : list Event) : list Event :=
  match tr with
  | [] => []
  | Clock _ :: tr' => unclocked tr'
  | e :: tr' => e :: unclocked tr'
  end.

(** The readings of the clock in a trace, in order. *)
Fixpoint clocks (tr : list Event) : list nat :=
  match tr with
  | [] => []
  | Clock k :: tr' => k :: clocks tr'
  | _ :: tr' => clocks tr'
  end.


(** The outcome of a computation run from [st]: [Q] when it returns,
    [E] when it raises. *)
Definition outcome {A : Type} (c : M A) (w : World) (st : State)
  (Q : A -> State -> Prop) (E : exn -> State -> Prop) : Prop :=
  match c w st with
  | (Ok a, st') => Q a st'
  | (Raise e, st') => E e st'
  end.

Section Sampling.
Variable fault : nat -> option Full.Fault.
Variable n : Z.
Variable s0 : State.

(** Since [s0]: the environment is as it was, nothing new was shown on the
    terminal, and every call of [subprocess.run] made has returned. *)
Definition sound (st : State) : Prop :=
  environ st = environ s0
  /\ shown (trace st) = shown (trace s0)
  /\ spawned s0 <= spawned st
  /\ forall k, spawned s0 <= k < spawned st -> fault k = None.

(** The ways in which the sampling since [s0] stops. *)
Definition stopped (e : exn) (st : State) : Prop :=
  environ st = environ s0
  /\ shown (trace st) = shown (trace s0)
  /\ (e = ZeroDivisionError /\ Z.to_nat n = 0
      \/ e = FileNotFoundError "cargo"
         /\ fault (spawned st) = Some Full.ProgramMissing
      \/ e = UnicodeDecodeError
         /\ exists k, k < spawned st /\ fault k = Some Full.OutputUndecodable).

End Sampling.

(** The output of the first child process does not decode. *)
Definition garbled : nat -> option Full.Fault :=
  fun k => if Nat.eqb k 0 then Some Full.OutputUndecodable else None.

(** The program cargo is not installed. *)
Definition no_cargo : nat -> option Full.Fault :=
  fun _ => Some Full.ProgramMissing.

End FullSpec.

(* ================================================================== *)
(** * Facts about dictionaries *)
(* ================================================================== *)

Local Open Scope list_scope.

Section DictFacts.
Import Py.
Context {V : Type}.
Implicit Types (d : dict V) (k : string) (v : V).

Lemma getitem_setitem_same d k v : getitem (setitem d k v) k = Some v.
Proof.
  induction d as [|[k' v'] d IH]; simpl.
  - now rewrite String.eqb_refl.
  - destruct (String.eqb k' k) eqn:E; simpl; now rewrite E.
Qed.

Lemma getitem_setitem_other d k k' v :
  k' <> k -> getitem (setitem d k v) k' = getitem d k'.
Proof.
  intros Hne. induction d as [|[k0 v0] d IH]; simpl.
  - destruct (String.eqb_spec k k'); congruence.
  - destruct (String.eqb_spec k0 k) as [->|Hk]; simpl.
    + destruct (String.eqb_spec k k'); congruence.
    + now rewrite IH.
Qed.

Lemma setitem_setitem d k v v' :
  setitem (setitem d k v) k v' = setitem d k v'.
Proof.
  induction d as [|[k0 v0] d IH]; simpl.
  - now rewrite String.eqb_refl.
  - destruct (String.eqb k0 k) eqn:E; simpl; rewrite E; congruence.
Qed.

Lemma setitem_getitem_id d k v : getitem d k = Some v -> setitem d k v = d.
Proof.
  induction d as [|[k0 v0] d IH]; simpl; [discriminate|].
  destruct (String.eqb_spec k0 k) as [->|Hk]; intros H.
  - congruence.
  - now rewrite IH.
Qed.

Lemma setitem_fresh d k v : ~ In k (keys d) -> setitem d k v = d ++ [(k, v)].
Proof.
  induction d as [|[k0 v0] d IH]; simpl; [reflexivity|].
  intros H. destruct (String.eqb_spec k0 k) as [->|Hk]; [tauto|].
  rewrite IH; tauto.
Qed.

Lemma keys_app d d' : keys (d ++ d') = keys d ++ keys d'.
Proof. apply map_app. Qed.

End DictFacts.

(* ================================================================== *)
(** * The loops *)
(* ================================================================== *)

Section Loops.
Import Py Proc Sys Bench Spec.

Lemma elapsed_from_length w t c : List.length (elapsed_from w t c) = c.
Proof. revert t. induction c; simpl; intros; [|rewrite IHc]; reflexivity. Qed.

Lemma elapsed_from_nth w c : forall t k,
  k < c -> nth_error (elapsed_from w t c) k = Some (elapsed w (t + 2 * k)).
Proof.
  induction c as [|c IH]; intros t k Hk; [lia|].
  destruct k as [|k]; simpl.
  - now rewrite Nat.add_0_r.
  - rewrite IH by lia. do 2 f_equal. lia.
Qed.

Lemma elapsed_from_children w ch t c :
  elapsed_from (with_children w ch) t c = elapsed_from w t c.
Proof. revert t. induction c; simpl; intros; [|rewrite IHc]; reflexivity. Qed.

(** One repetition: two clock readings around one captured solver run. *)
Lemma sample_spec v z d m w st :
  getitem d v = Some (Samples m) ->
  sample v z d w st =
    (Ok (setitem d v (Samples (m ++ [elapsed w (ticks st)]))),
     {| environ := environ st;
        trace := trace st ++ [Run (solve_argv v) true];
        ticks := S (S (ticks st));
        spawned := S (spawned st) |}).
Proof.
  intros H. unfold sample, solve_zero_by, append_sample, bind, time_time,
    subprocess_run, ret; simpl.
  now rewrite H.
Qed.

(** The inner loop, for any number of repetitions. *)
Lemma sample_loop v xs : forall d m w st,
  getitem d v = Some (Samples m) ->
  for_each xs (sample v) d w st =
    (Ok (setitem d v (Samples (m ++ elapsed_from w (ticks st) (List.length xs)))),
     {| environ := environ st;
        trace := trace st ++ repeat (Run (solve_argv v) true) (List.length xs);
        ticks := ticks st + 2 * List.length xs;
        spawned := spawned st + List.length xs |}).
Proof.
  induction xs as [|x xs IH]; intros d m w st H; simpl.
  - unfold ret. rewrite !app_nil_r, !Nat.add_0_r.
    rewrite (setitem_getitem_id _ _ _ H). now destruct st.
  - unfold bind. rewrite (sample_spec _ _ _ _ _ _ H).
    rewrite (IH _ (m ++ [elapsed w (ticks st)])) by apply getitem_setitem_same.
    simpl. rewrite setitem_setitem, <- !app_assoc. simpl.
    do 2 f_equal; lia.
Qed.

Lemma range_length n : List.length (range n) = Z.to_nat n.
Proof. unfold range. now rewrite length_map, length_seq. Qed.

(** The inner loop as the script enters it: the sequence of [v] was just
    set to the empty list, whatever the dictionary held before. *)
Lemma repetitions_spec v count d w st :
  for_each (range (Z.of_nat count)) (sample v) (setitem d v (Samples [])) w st =
    (Ok (setitem d v (Samples (elapsed_from w (ticks st) count))),
     {| environ := environ st;
        trace := trace st ++ repeat (Run (solve_argv v) true) count;
        ticks := ticks st + 2 * count;
        spawned := spawned st + count |}).
Proof.
  rewrite (sample_loop v _ _ []) by apply getitem_setitem_same.
  now rewrite range_length, Nat2Z.id, setitem_setitem.
Qed.

(** One variant, with at least one repetition. *)
Lemma benchmark_spec n v d w st :
  Z.to_nat n <> 0 ->
  benchmark n v d w st =
    (Ok (setitem d v (Samples (elapsed_from w (ticks st) (Z.to_nat n)))),
     {| environ := environ st;
        trace := trace st ++ repeat (Run (solve_argv v) true) (Z.to_nat n)
                   ++ [Print (ZeroBy v (mean (elapsed_from w (ticks st) (Z.to_nat n))))];
        ticks := ticks st + 2 * Z.to_nat n;
        spawned := spawned st + Z.to_nat n |}).
Proof.
  intros Hn. unfold benchmark, bind.
  rewrite (sample_loop v _ _ []) by apply getitem_setitem_same.
  rewrite range_length, setitem_setitem. simpl app.
  unfold mean_of. rewrite getitem_setitem_same.
  unfold truediv. rewrite elapsed_from_length.
  destruct (Nat.eqb_spec (Z.to_nat n) 0) as [E|_]; [contradiction|].
  unfold lift, ret, print, emit, mean; simpl.
  now rewrite elapsed_from_length, <- app_assoc.
Qed.

(** One variant, without a repetition: the mean divides by zero, and the
    state is as it was before. *)
Lemma benchmark_zero n v d w st :
  Z.to_nat n = 0 ->
  benchmark n v d w st = (Raise ZeroDivisionError, st).
Proof.
  intros Hn. unfold benchmark, bind.
  rewrite (sample_loop v _ _ []) by apply getitem_setitem_same.
  rewrite range_length, Hn, setitem_setitem. simpl.
  unfold mean_of. rewrite getitem_setitem_same. simpl.
  unfold raise. rewrite app_nil_r, !Nat.add_0_r. now destruct st.
Qed.

(** The outer loop over variants that are pairwise distinct and new to
    the dictionary. *)
Lemma benchmark_loop n w : Z.to_nat n <> 0 -> forall vs d st,
  NoDup vs -> (forall v, In v vs -> ~ In v (keys d)) ->
  for_each vs (benchmark n) d w st =
    (Ok (d ++ measured w (Z.to_nat n) (ticks st) vs),
     {| environ := environ st;
        trace := trace st ++ sampling_trace w (Z.to_nat n) (ticks st) vs;
        ticks := ticks st + 2 * Z.to_nat n * List.length vs;
        spawned := spawned st + Z.to_nat n * List.length vs |}).
Proof.
  intros Hn. induction vs as [|v vs IH]; intros d st Hnd Hfresh; simpl.
  - unfold ret. rewrite !app_nil_r, !Nat.mul_0_r, !Nat.add_0_r. now destruct st.
  - inversion Hnd as [|? ? Hv Hvs]; subst.
    unfold bind. rewrite benchmark_spec by assumption.
    rewrite setitem_fresh by (apply Hfresh; now left).
    rewrite IH; [| assumption |].
    + simpl. rewrite <- !app_assoc. simpl. do 2 f_equal; lia.
    + intros v' Hin. rewrite keys_app, in_app_iff. simpl.
      intros [Hd | [<- | []]]; [| contradiction].
      apply (Hfresh v'); [now right | assumption].
Qed.

Lemma measured_children w ch c : forall vs t,
  measured (with_children w ch) c t vs = measured w c t vs.
Proof.
  induction vs as [|v vs IH]; intros t; simpl; [reflexivity|].
  now rewrite IH, elapsed_from_children.
Qed.

Lemma sampling_trace_children w ch c : forall vs t,
  sampling_trace (with_children w ch) c t vs = sampling_trace w c t vs.
Proof.
  induction vs as [|v vs IH]; intros t; simpl; [reflexivity|].
  now rewrite IH, elapsed_from_children.
Qed.

Lemma variants_NoDup : NoDup variants.
Proof.
  unfold variants. repeat constructor; simpl; intuition discriminate.
Qed.

(** The section BENCHMARKS with at least one repetition. *)
Lemma benchmarks_spec n w st :
  Z.to_nat n <> 0 ->
  benchmarks n w st =
    (Ok (measured w (Z.to_nat n) (ticks st) variants),
     {| environ := environ st;
        trace := trace st ++ sampling_trace w (Z.to_nat n) (ticks st) variants;
        ticks := ticks st + 2 * Z.to_nat n * 4;
        spawned := spawned st + Z.to_nat n * 4 |}).
Proof.
  intros Hn. unfold benchmarks.
  rewrite (benchmark_loop n w Hn variants [] st variants_NoDup); [reflexivity|].
  intros v _ [].
Qed.

(** The section BENCHMARKS without a repetition. *)
Lemma benchmarks_zero n w st :
  Z.to_nat n = 0 -> benchmarks n w st = (Raise ZeroDivisionError, st).
Proof.
  intros Hn. unfold benchmarks, variants. simpl. unfold bind.
  now rewrite benchmark_zero.
Qed.

End Loops.

(* ================================================================== *)
(** * The whole script *)
(* ================================================================== *)

Section Script.
Import Py Proc Sys Bench Spec.

Lemma keys_measured w c : forall vs t, keys (measured w c t vs) = vs.
Proof. induction vs as [|v vs IH]; intros t; simpl; [|rewrite IH]; reflexivity. Qed.

Lemma note_not_variant : ~ In "note"%string variants.
Proof. unfold variants. simpl. intuition discriminate. Qed.

(** A run without repetitions stops in the first variant, before any
    solver run, with the override of DATABASE in place. *)
Lemma main_zero args w env :
  Z.to_nat (samples args) = 0 ->
  main args w (initial env) =
    (Raise ZeroDivisionError,
     {| environ := setitem env "DATABASE" "bench.db";
        trace := Print (Acknowledged (note args) (samples args) (profile args))
                   :: SetEnv "DATABASE" "bench.db"
                   :: profiling_trace (profile args) w;
        ticks := 0;
        spawned := if profile args then 1 else 0 |}).
Proof.
  intros Hn.
  cbv [main bind print emit environ_get environ_set ret initial
       flamegraph subprocess_run environ trace ticks spawned].
  destruct (profile args); cbv [profiling_trace]; cbn [app];
    now rewrite benchmarks_zero.
Qed.

(** A run with repetitions samples everything, restores DATABASE, and
    then either writes the record or fails to open the file. *)
Lemma main_sampled args w env :
  Z.to_nat (samples args) <> 0 ->
  let db := get env "DATABASE" "solutions.db" in
  let path := filename (wall_clock w) in
  let st outcome :=
    {| environ := setitem (setitem env "DATABASE" "bench.db") "DATABASE" db;
       trace := sampled_trace args w ++ SetEnv "DATABASE" db :: outcome;
       ticks := 2 * Z.to_nat (samples args) * 4;
       spawned := (if profile args then 1 else 0) + Z.to_nat (samples args) * 4 |} in
  main args w (initial env) =
    if can_open w path
    then (Ok tt, st [Open path; Dump path (record args w)])
    else (Raise (OSError path), st []).
Proof.
  intros Hn db path st.
  cbv [main bind print emit environ_get environ_set ret initial
       flamegraph subprocess_run environ trace ticks spawned].
  destruct (profile args) eqn:Hp;
    rewrite benchmarks_spec by assumption;
    cbv [datetime_now open_w emit json_dump environ trace ticks spawned];
    fold path; fold db; destruct (can_open w path);
    subst st; cbv [sampled_trace profiling_trace record]; rewrite ?Hp;
    cbn [app Nat.add];
    rewrite ?(setitem_fresh (measured _ _ _ _))
      by (rewrite keys_measured; apply note_not_variant);
    rewrite <- ?app_assoc; cbn [app]; reflexivity.
Qed.

(** ** Projections of the trace *)

Lemma runs_app tr tr' : runs (tr ++ tr') = runs tr ++ runs tr'.
Proof.
  induction tr as [|e tr IH]; simpl; [reflexivity|].
  destruct e; simpl; now rewrite IH.
Qed.

Lemma dumps_app tr tr' : dumps (tr ++ tr') = dumps tr ++ dumps tr'.
Proof.
  induction tr as [|e tr IH]; simpl; [reflexivity|].
  destruct e; simpl; now rewrite IH.
Qed.

Lemma shown_app tr tr' : shown (tr ++ tr') = shown tr ++ shown tr'.
Proof.
  induction tr as [|e tr IH]; simpl; [reflexivity|].
  destruct e; simpl; now rewrite IH.
Qed.

Lemma runs_repeat argv capture c :
  runs (repeat (Run argv capture) c) = repeat (argv, capture) c.
Proof. induction c; simpl; [|rewrite IHc]; reflexivity. Qed.

Lemma dumps_repeat_run argv capture c : dumps (repeat (Run argv capture) c) = [].
Proof. induction c; simpl; auto. Qed.


Lemma runs_sampling_trace w c : forall vs t,
  runs (sampling_trace w c t vs) = solver_runs c vs.
Proof.
  induction vs as [|v vs IH]; intros t; simpl; [reflexivity|].
  rewrite runs_app, runs_repeat. cbn [runs]. now rewrite IH.
Qed.

Lemma dumps_sampling_trace w c : forall vs t,
  dumps (sampling_trace w c t vs) = [].
Proof.
  induction vs as [|v vs IH]; intros t; simpl; [reflexivity|].
  rewrite dumps_app, dumps_repeat_run. cbn [dumps app]. apply IH.
Qed.


Lemma solver_runs_zero vs : solver_runs 0 vs = [].
Proof. induction vs; simpl; auto. Qed.

Lemma runs_sampled_trace args w :
  runs (sampled_trace args w)
  = profiler_runs (profile args) ++ solver_runs (Z.to_nat (samples args)) variants.
Proof.
  unfold sampled_trace. cbn [runs].
  rewrite runs_app, runs_sampling_trace.
  now destruct (profile args).
Qed.

(** The child processes of a run, whatever its outcome. *)
Lemma runs_main args w env :
  runs (trace (snd (main args w (initial env))))
  = profiler_runs (profile args) ++ solver_runs (Z.to_nat (samples args)) variants.
Proof.
  destruct (Nat.eq_dec (Z.to_nat (samples args)) 0) as [E|E].
  - rewrite main_zero, E, solver_runs_zero by assumption.
    cbn [snd trace runs]. now destruct (profile args).
  - rewrite main_sampled by assumption.
    destruct (can_open _ _); cbn [snd trace];
      rewrite runs_app, runs_sampled_trace; cbn [runs];
      now rewrite app_nil_r.
Qed.

(** The files written by a run, whatever its outcome. *)
Lemma dumps_main args w env :
  dumps (trace (snd (main args w (initial env))))
  = if (Nat.eqb (Z.to_nat (samples args)) 0
        || negb (can_open w (filename (wall_clock w))))%bool
    then []
    else [(filename (wall_clock w), record args w)].
Proof.
  destruct (Nat.eqb_spec (Z.to_nat (samples args)) 0) as [E|E].
  - rewrite main_zero by assumption. cbn [snd trace dumps orb].
    now destruct (profile args).
  - rewrite main_sampled by assumption.
    assert (H : dumps (sampled_trace args w) = []).
    { unfold sampled_trace. cbn [dumps].
      rewrite dumps_app, dumps_sampling_trace.
      now destruct (profile args). }
    destruct (can_open _ _); cbn [snd trace orb negb];
      now rewrite dumps_app, H.
Qed.

(** Looking a variant up in the measurements. *)
Lemma getitem_measured w c : forall vs t j v,
  NoDup vs -> nth_error vs j = Some v ->
  getitem (measured w c t vs) v = Some (Samples (elapsed_from w (t + 2 * c * j) c)).
Proof.
  induction vs as [|v0 vs IH]; intros t j v Hnd Hj; [now destruct j|].
  inversion Hnd as [|? ? Hv0 Hvs]; subst. simpl.
  destruct j as [|j]; simpl in Hj.
  - injection Hj as ->. rewrite String.eqb_refl. do 3 f_equal. lia.
  - destruct (String.eqb_spec v0 v) as [->|Hne].
    + exfalso. apply Hv0. eapply nth_error_In; eauto.
    + rewrite (IH _ j) by assumption. do 3 f_equal. lia.
Qed.

Lemma getitem_app_fresh {V : Type} (d d' : dict V) k :
  ~ In k (keys d) -> getitem (d ++ d') k = getitem d' k.
Proof.
  induction d as [|[k0 v0] d IH]; simpl; [reflexivity|].
  intros H. destruct (String.eqb_spec k0 k) as [->|Hne]; [tauto|].
  apply IH. tauto.
Qed.

(** The trace of the sampling, read against the final measurements. *)
Lemma sampling_trace_progress w c : forall vs t d0,
  NoDup vs -> (forall v, In v vs -> ~ In v (keys d0)) ->
  sampling_trace w c t vs = progress c (d0 ++ measured w c t vs) vs.
Proof.
  unfold progress.
  induction vs as [|v vs IH]; intros t d0 Hnd Hfresh; [reflexivity|].
  inversion Hnd as [|? ? Hv Hvs]; subst. cbn [sampling_trace flat_map measured].
  unfold samples_of at 1.
  rewrite getitem_app_fresh by (apply Hfresh; now left).
  cbn [getitem]. rewrite String.eqb_refl, <- app_assoc. cbn [app].
  do 2 f_equal.
  rewrite (IH _ (d0 ++ [(v, Samples (elapsed_from w t c))])); [| assumption |].
  - now rewrite <- app_assoc.
  - intros v' Hin. rewrite keys_app, in_app_iff. simpl.
    intros [Hd | [<- | []]]; [| contradiction].
    apply (Hfresh v'); [now right | assumption].
Qed.

End Script.

(* ================================================================== *)
(** * The properties of the harness *)
(* ================================================================== *)

Section Properties.
Import Py Proc Sys Bench Spec.

(** The model at work: two repetitions on the sample clock 0, 1, 4, 9, ... *)
Example elapsed_from_world :
  elapsed_from Examples.world 0 2 = [1%float; 5%float].
Proof. vm_compute. reflexivity. Qed.

Example mean_1_5 : mean [1%float; 5%float] = 3%float.
Proof. vm_compute. reflexivity. Qed.

Example filename_world :
  filename (wall_clock Examples.world)
  = "dev/bench/2024-03-09_07-05-01.json"%string.
Proof. vm_compute. reflexivity. Qed.

Example no_samples_run :
  main Examples.no_samples Examples.world (initial [])
  = (Raise ZeroDivisionError,
     {| environ := [("DATABASE", "bench.db")]%string;
        trace := [Print (Acknowledged "No note." 0 true);
                  SetEnv "DATABASE" "bench.db";
                  Run (flamegraph_argv "2-100000-1-2") false;
                  Shown "out" "err"];
        ticks := 0; spawned := 1 |}).
Proof. vm_compute. reflexivity. Qed.

(** C1.  The harness is specified to compact bench.db (sqlite3 VACUUM)
    when it starts, before any sampling.  The script defines
    [init_bench_database], which starts exactly that command, but no run of
    the script ever starts it: every child process of every run is a cargo
    command. *)
Theorem C1_vacuum_is_never_run args w env :
  (forall st,
     runs (trace (snd (init_bench_database w st)))
     = runs (trace st) ++ [(sqlite3_argv, true)])
  /\ ~ In (sqlite3_argv, true) (runs (trace (snd (main args w (initial env)))))
  /\ forall argv capture,
       In (argv, capture) (runs (trace (snd (main args w (initial env))))) ->
       hd ""%string argv = "cargo"%string.
Proof.
  assert (Hcargo : forall argv capture,
    In (argv, capture) (runs (trace (snd (main args w (initial env))))) ->
    hd ""%string argv = "cargo"%string).
  { intros argv capture. rewrite runs_main, in_app_iff.
    intros [H | H].
    - destruct (profile args); simpl in H; [|contradiction].
      destruct H as [H | []]. now inversion H.
    - unfold solver_runs in H. apply in_flat_map in H.
      destruct H as (v & _ & H). apply repeat_spec in H. now inversion H. }
  split; [| split; [| exact Hcargo]].
  - intros st. cbv [init_bench_database bind subprocess_run ret snd trace].
    now rewrite runs_app.
  - intros H. apply Hcargo in H. discriminate H.
Qed.

(** C3.  With [n >= 1] repetitions, the sequence of every variant starts
    empty, holds after [k] repetitions exactly the [k] elapsed times taken
    so far, and holds at the end of the sampling exactly [n] elapsed times,
    in the order in which the solver was run. *)
Theorem C3_samples_per_variant n w st :
  (1 <= n)%Z ->
  (forall v d, samples_of (setitem d v (Samples [])) v = Some [])
  /\ (forall v d k,
        exists d', fst (for_each (range (Z.of_nat k)) (sample v)
                          (setitem d v (Samples [])) w st) = Ok d'
                   /\ samples_of d' v = Some (elapsed_from w (ticks st) k))
  /\ exists d st',
       benchmarks n w st = (Ok d, st')
       /\ keys d = variants
       /\ forall j v, nth_error variants j = Some v ->
            exists m, samples_of d v = Some m
                      /\ List.length m = Z.to_nat n
                      /\ forall k, k < Z.to_nat n ->
                           nth_error m k
                           = Some (elapsed w (ticks st + 2 * (j * Z.to_nat n + k))).
Proof.
  intros Hn. split; [| split].
  - intros v d. unfold samples_of. now rewrite getitem_setitem_same.
  - intros v d k. rewrite repetitions_spec. eexists; split; [reflexivity|].
    unfold samples_of. now rewrite getitem_setitem_same.
  - assert (Hc : Z.to_nat n <> 0) by lia.
    rewrite benchmarks_spec by assumption.
    do 2 eexists; split; [reflexivity|]. split; [apply keys_measured|].
    intros j v Hj. unfold samples_of.
    rewrite (getitem_measured _ _ _ _ j) by (apply variants_NoDup || assumption).
    eexists; split; [reflexivity|]. split; [apply elapsed_from_length|].
    intros k Hk. rewrite elapsed_from_nth by assumption. do 2 f_equal. lia.
Qed.

(** C4.  When a run completes, it has written one object, into the file
    named after the time; the keys of the object are the four variants
    followed by "note", and under "note" is the note of the configuration. *)
Theorem C4_record_keys args w env st :
  main args w (initial env) = (Ok tt, st) ->
  exists obj,
    dumps (trace st) = [(filename (wall_clock w), obj)]
    /\ keys obj = ["2-10000-1-2"; "2-10000-3-5-7-11"; "4-10000-1-2";
                   "4-10000-3-5-7-11"; "note"]%string
    /\ (forall k, In k (keys obj) <-> In k variants \/ k = "note"%string)
    /\ getitem obj "note" = Some (Text (note args)).
Proof.
  intros Hrun. pose proof (dumps_main args w env) as Hd.
  rewrite Hrun in Hd. cbn [snd] in Hd.
  destruct (Nat.eq_dec (Z.to_nat (samples args)) 0) as [E|E].
  { rewrite main_zero in Hrun by assumption. discriminate Hrun. }
  rewrite main_sampled in Hrun by assumption.
  destruct (can_open w (filename (wall_clock w))); [|discriminate Hrun].
  destruct (Nat.eqb_spec (Z.to_nat (samples args)) 0) as [E'|_]; [contradiction|].
  cbn [orb negb] in Hd.
  assert (Hk : keys (record args w) = variants ++ ["note"%string]).
  { unfold record. now rewrite keys_app, keys_measured. }
  exists (record args w). split; [exact Hd|]. split; [exact Hk|]. split.
  - intros k. rewrite Hk, in_app_iff. simpl. intuition.
  - unfold record. rewrite getitem_app_fresh.
    + reflexivity.
    + rewrite keys_measured. apply note_not_variant.
Qed.

(** C5.  With [n >= 1] repetitions, the sampling leaves in the trace,
    variant after variant, the [n] solver runs of the variant followed at
    once by the print of the mean (sum divided by count) of the sequence
    that the measurements record for that variant. *)
Theorem C5_mean_printed_per_variant n w st :
  (1 <= n)%Z ->
  exists d st',
    benchmarks n w st = (Ok d, st')
    /\ trace st' = trace st ++ progress (Z.to_nat n) d variants
    /\ (forall v, In v variants -> exists m, samples_of d v = Some m)
    /\ forall m, mean m = PrimFloat.div (sum m) (float_of_len (List.length m)).
Proof.
  intros Hn. assert (Hc : Z.to_nat n <> 0) by lia.
  rewrite benchmarks_spec by assumption.
  do 2 eexists; split; [reflexivity|]. cbn [trace]. split; [| split].
  - f_equal. apply (sampling_trace_progress w _ variants _ []).
    + apply variants_NoDup.
    + intros v _ [].
  - intros v Hin. apply In_nth_error in Hin. destruct Hin as [j Hj].
    unfold samples_of.
    rewrite (getitem_measured _ _ _ _ j) by (apply variants_NoDup || assumption).
    eexists; reflexivity.
  - reflexivity.
Qed.

(** C9.  With a sample count below one the run ends with an unhandled
    ZeroDivisionError, raised in the first variant before any solver run
    and before any mean is printed; no file is opened or written, and
    DATABASE is left at "bench.db". *)
Theorem C9_no_samples args w env :
  (samples args < 1)%Z ->
  exists st,
    main args w (initial env) = (Raise ZeroDivisionError, st)
    /\ getitem (environ st) "DATABASE" = Some "bench.db"%string
    /\ dumps (trace st) = []
    /\ (forall path, ~ In (Open path) (trace st))
    /\ (forall v x, ~ In (Print (ZeroBy v x)) (trace st))
    /\ runs (trace st) = profiler_runs (profile args)
    /\ ticks st = 0
    /\ forall st0,
         benchmark (samples args) "2-10000-1-2" [] w st0
         = (Raise ZeroDivisionError, st0).
Proof.
  intros Hn. assert (Hc : Z.to_nat (samples args) = 0) by lia.
  rewrite main_zero by assumption. eexists; split; [reflexivity|].
  cbn [environ trace ticks].
  split; [apply getitem_setitem_same|].
  split; [now destruct (profile args)|].
  split; [intros path; destruct (profile args); simpl; intuition discriminate|].
  split; [intros v x; destruct (profile args); simpl; intuition discriminate|].
  split; [now destruct (profile args)|].
  split; [reflexivity|].
  intros st0. now apply benchmark_zero.
Qed.

(** C10.  Whenever the command line is accepted, the profile flag is true
    for every non-empty string given with --profile (among them "False"
    and "0"), and false only when the option is left out or given the
    empty string. *)
Theorem C10_profile_flag int_of_str cli args :
  parse_args int_of_str cli = Some args ->
  (forall s, given_profile cli = Some s -> s <> ""%string -> profile args = true)
  /\ (given_profile cli = Some "False"%string -> profile args = true)
  /\ (given_profile cli = Some "0"%string -> profile args = true)
  /\ (profile args = false <->
        given_profile cli = None \/ given_profile cli = Some ""%string).
Proof.
  unfold parse_args. intros H.
  destruct (match given_samples cli with
            | Some s => int_of_str s
            | None => Some 3%Z
            end) as [k|]; [|discriminate H].
  injection H as <-. cbn [profile].
  assert (Hb : forall s, bool_of_str s = false <-> s = ""%string).
  { intros [|c s]; unfold bool_of_str; simpl; split; congruence. }
  assert (Hne : forall s, given_profile cli = Some s -> s <> ""%string ->
                          match given_profile cli with
                          | Some s => bool_of_str s
                          | None => false
                          end = true).
  { intros s -> Hs. destruct (bool_of_str s) eqn:E; [reflexivity|].
    apply Hb in E. contradiction. }
  split; [exact Hne|].
  split; [intros E; apply (Hne _ E); discriminate|].
  split; [intros E; apply (Hne _ E); discriminate|].
  destruct (given_profile cli) as [s|].
  - rewrite Hb. split.
    + intros ->. now right.
    + intros [E|E]; congruence.
  - split; auto.
Qed.

(** C2 fails where DATABASE was unset: a run that starts without DATABASE
    in the environment completes and leaves DATABASE set. *)
Lemma C2_unset_database_is_set_afterwards :
  ~ (forall args w env st,
       main args w (initial env) = (Ok tt, st) ->
       getitem (environ st) "DATABASE" = getitem env "DATABASE").
Proof.
  intros H.
  assert (Hrun : main Examples.default_args Examples.world (initial [])
                 = (Ok tt, snd (main Examples.default_args Examples.world
                                  (initial []))))
    by (vm_compute; reflexivity).
  apply H in Hrun. vm_compute in Hrun. discriminate Hrun.
Qed.

(** C2, amended.  When a run completes, DATABASE holds the value it had
    before the run if it had one, and "solutions.db" if it had none, so
    that reading it with that default gives the same before and after; no
    other variable has changed.  The assignment that restores it comes
    after every child process of the run, and is followed only by the
    opening and the writing of the output file. *)
Theorem C2_database_restored args w env st :
  main args w (initial env) = (Ok tt, st) ->
  let db := get env "DATABASE" "solutions.db"%string in
  get (environ st) "DATABASE" "solutions.db"%string = db
  /\ (forall v, getitem env "DATABASE" = Some v ->
               getitem (environ st) "DATABASE" = Some v)
  /\ (getitem env "DATABASE" = None ->
      getitem (environ st) "DATABASE" = Some "solutions.db"%string)
  /\ (forall k, k <> "DATABASE"%string -> getitem (environ st) k = getitem env k)
  /\ exists sampling obj,
       trace st = sampling ++ [SetEnv "DATABASE" db;
                               Open (filename (wall_clock w));
                               Dump (filename (wall_clock w)) obj]
       /\ runs sampling = runs (trace st)
       /\ runs sampling
          = profiler_runs (profile args)
              ++ solver_runs (Z.to_nat (samples args)) variants
       /\ (1 <= samples args)%Z.
Proof.
  intros Hrun db.
  destruct (Nat.eq_dec (Z.to_nat (samples args)) 0) as [E|E].
  { rewrite main_zero in Hrun by assumption. discriminate Hrun. }
  rewrite main_sampled in Hrun by assumption.
  destruct (can_open w (filename (wall_clock w))); [|discriminate Hrun].
  apply (f_equal snd) in Hrun. cbn [snd] in Hrun. subst st.
  cbn [environ trace]. fold db.
  assert (Hget : getitem (setitem (setitem env "DATABASE" "bench.db")
                            "DATABASE" db) "DATABASE" = Some db)
    by apply getitem_setitem_same.
  split; [unfold get at 1; now rewrite Hget|].
  split; [intros v Hv; rewrite Hget; subst db; unfold get; now rewrite Hv|].
  split; [intros Hv; rewrite Hget; subst db; unfold get; now rewrite Hv|].
  split; [intros k Hk; now rewrite !getitem_setitem_other by assumption|].
  exists (sampled_trace args w), (record args w).
  split; [reflexivity|]. split; [| split; [apply runs_sampled_trace | lia]].
  rewrite runs_app. cbn [runs]. now rewrite app_nil_r.
Qed.

End Properties.

(* ================================================================== *)
(** * The name of the output file *)
(* ================================================================== *)

Section FileNames.
Import Datetime Bench Spec.
Local Open Scope Z_scope.

(** ** Lexicographic order of strings *)

Lemma ascii_compare_refl c : Ascii.compare c c = Eq.
Proof. apply N.compare_refl. Qed.

Lemma string_compare_refl s : String.compare s s = Eq.
Proof. induction s; simpl; [|rewrite ascii_compare_refl]; auto. Qed.

(** Strings of one length are compared before what follows them. *)
Lemma compare_append a : forall b s t,
  String.length a = String.length b ->
  String.compare (a ++ s) (b ++ t) =
    match String.compare a b with
    | Eq => String.compare s t
    | c => c
    end.
Proof.
  induction a as [|c a IH]; intros [|c' b] s t Hlen; try discriminate Hlen.
  - reflexivity.
  - simpl. destruct (Ascii.compare c c'); auto.
Qed.

Lemma length_append (a b : string) :
  String.length (a ++ b) = (String.length a + String.length b)%nat.
Proof. induction a; simpl; auto. Qed.

(** ** Zero-padded numbers *)

Lemma zero_padded_length w : forall n, String.length (zero_padded w n) = w.
Proof.
  induction w as [|w IH]; intros n; simpl; [reflexivity|].
  rewrite length_append, IH. simpl. lia.
Qed.

Lemma digit_compare a b :
  Ascii.compare (digit a) (digit b) = (a mod 10 ?= b mod 10).
Proof.
  unfold digit.
  pose proof (Z.mod_pos_bound a 10 eq_refl) as Ha.
  pose proof (Z.mod_pos_bound b 10 eq_refl) as Hb.
  rewrite <- (Z2Nat.id (a mod 10)) at 2 by lia.
  rewrite <- (Z2Nat.id (b mod 10)) at 2 by lia.
  assert (Hi : (Z.to_nat (a mod 10) < 10)%nat) by lia.
  assert (Hj : (Z.to_nat (b mod 10) < 10)%nat) by lia.
  revert Hi Hj.
  generalize (Z.to_nat (a mod 10)) as i, (Z.to_nat (b mod 10)) as j.
  intros i j Hi Hj.
  do 10 (destruct i as [|i]; [do 10 (destruct j as [|j]; [reflexivity|]); lia|]).
  lia.
Qed.

(** Numbers that fit the width compare as their padded digits do. *)
Lemma zero_padded_compare w : forall a b,
  0 <= a < 10 ^ Z.of_nat w -> 0 <= b < 10 ^ Z.of_nat w ->
  String.compare (zero_padded w a) (zero_padded w b) = (a ?= b).
Proof.
  induction w as [|w IH]; intros a b Ha Hb.
  - simpl in *. assert (a = 0) by lia. assert (b = 0) by lia. now subst.
  - rewrite Nat2Z.inj_succ, Z.pow_succ_r in Ha, Hb by lia.
    cbn [zero_padded].
    rewrite compare_append by now rewrite !zero_padded_length.
    rewrite IH by (split; [apply Z.div_pos | apply Z.div_lt_upper_bound]; lia).
    cbn [String.compare]. rewrite digit_compare.
    pose proof (Z.div_mod a 10 ltac:(lia)) as Ea.
    pose proof (Z.div_mod b 10 ltac:(lia)) as Eb.
    pose proof (Z.mod_pos_bound a 10 eq_refl) as Ma.
    pose proof (Z.mod_pos_bound b 10 eq_refl) as Mb.
    destruct (Z.compare_spec (a / 10) (b / 10)) as [E|E|E];
      destruct (Z.compare_spec (a mod 10) (b mod 10)) as [E'|E'|E'];
      symmetry; try (apply Z.compare_eq_iff; lia);
      try (apply Z.compare_lt_iff; lia); try (apply Z.compare_gt_iff; lia).
Qed.

(** ** The file name, field by field *)

Lemma filename_fields d :
  filename d =
    ("dev/bench/" ++ zero_padded 4 (year d) ++ "-" ++ zero_padded 2 (month d)
     ++ "-" ++ zero_padded 2 (day d) ++ "_" ++ zero_padded 2 (hour d)
     ++ "-" ++ zero_padded 2 (minute d) ++ "-" ++ zero_padded 2 (second d)
     ++ ".json")%string.
Proof. reflexivity. Qed.

(** ** The calendar *)

Lemma days_in_month_bounds y m :
  1 <= m <= 12 -> 28 <= days_in_month y m <= 31.
Proof.
  intros Hm.
  assert (H : m = 1 \/ m = 2 \/ m = 3 \/ m = 4 \/ m = 5 \/ m = 6 \/ m = 7
              \/ m = 8 \/ m = 9 \/ m = 10 \/ m = 11 \/ m = 12) by lia.
  unfold days_in_month.
  repeat (destruct H as [H|H]); subst m; destruct (is_leap y); simpl; lia.
Qed.

Lemma days_before_month_nonneg y m : 0 <= days_before_month y m.
Proof.
  unfold days_before_month.
  assert (0 <= nth (Z.to_nat m)
                 [0; 0; 31; 59; 90; 120; 151; 181; 212; 243; 273; 304; 334] 0).
  { generalize (Z.to_nat m) as i. intros i.
    do 13 (destruct i as [|i]; [simpl; lia|]). destruct i; simpl; lia. }
  destruct ((2 <? m) && is_leap y)%bool; lia.
Qed.

(** A month ends before any later month of the year begins. *)
Lemma days_before_later_month y m m' :
  1 <= m -> m < m' -> m' <= 12 ->
  days_before_month y m + days_in_month y m <= days_before_month y m'.
Proof.
  intros H1 H2 H3.
  assert (H : m = 1 \/ m = 2 \/ m = 3 \/ m = 4 \/ m = 5 \/ m = 6 \/ m = 7
              \/ m = 8 \/ m = 9 \/ m = 10 \/ m = 11) by lia.
  assert (H' : m' = 2 \/ m' = 3 \/ m' = 4 \/ m' = 5 \/ m' = 6 \/ m' = 7
              \/ m' = 8 \/ m' = 9 \/ m' = 10 \/ m' = 11 \/ m' = 12) by lia.
  unfold days_before_month, days_in_month.
  repeat (destruct H as [H|H]); subst m;
    repeat (destruct H' as [H'|H']); subst m'; try lia;
    destruct (is_leap y); simpl; lia.
Qed.

(** The last day of a month is within the year. *)
Lemma days_before_end_of_month y m :
  1 <= m <= 12 ->
  days_before_month y m + days_in_month y m
  <= 365 + (if is_leap y then 1 else 0).
Proof.
  intros Hm.
  assert (H : m = 1 \/ m = 2 \/ m = 3 \/ m = 4 \/ m = 5 \/ m = 6 \/ m = 7
              \/ m = 8 \/ m = 9 \/ m = 10 \/ m = 11 \/ m = 12) by lia.
  unfold days_before_month, days_in_month.
  repeat (destruct H as [H|H]); subst m; destruct (is_leap y); simpl; lia.
Qed.

Lemma days_before_next_year y :
  days_before_year (y + 1)
  = days_before_year y + 365 + (if is_leap y then 1 else 0).
Proof.
  unfold days_before_year, is_leap. cbn zeta.
  replace (y + 1 - 1) with y by lia.
  destruct (Z.eqb_spec (y mod 4) 0), (Z.eqb_spec (y mod 100) 0),
    (Z.eqb_spec (y mod 400) 0); cbn [negb andb orb];
    Z.div_mod_to_equations; lia.
Qed.

Lemma days_before_year_mono y y' :
  y <= y' -> days_before_year y <= days_before_year y'.
Proof.
  intros H. destruct (Z.eq_dec y y') as [->|Hne]; [lia|].
  unfold days_before_year. cbn zeta. Z.div_mod_to_equations. lia.
Qed.

(** An earlier date has a smaller ordinal. *)
Lemma toordinal_lt a b :
  valid a -> valid b -> date_lt a b -> toordinal a < toordinal b.
Proof.
  unfold valid, date_lt, toordinal. cbn [fields_lt].
  intros (Hy & Hm & Hd & _) (Hy' & Hm' & Hd' & _) H.
  pose proof (days_before_month_nonneg (year b) (month b)) as Hnn.
  destruct H as [H | [Ey [H | [Em [H | [_ []]]]]]].
  - pose proof (days_before_end_of_month (year a) (month a) Hm) as He.
    pose proof (days_before_next_year (year a)) as Hs.
    pose proof (days_before_year_mono (year a + 1) (year b) ltac:(lia)) as Hmono.
    lia.
  - pose proof (days_before_later_month (year a) (month a) (month b)
                  ltac:(lia) H ltac:(lia)) as Hl.
    rewrite Ey in *. lia.
  - rewrite Ey, Em in *. lia.
Qed.

(** ** Names and times *)

Lemma valid_fields d :
  valid d ->
  0 <= year d < 10 ^ Z.of_nat 4 /\ 0 <= month d < 10 ^ Z.of_nat 2
  /\ 0 <= day d < 10 ^ Z.of_nat 2 /\ 0 <= hour d < 10 ^ Z.of_nat 2
  /\ 0 <= minute d < 10 ^ Z.of_nat 2 /\ 0 <= second d < 10 ^ Z.of_nat 2.
Proof.
  intros (Hy & Hm & Hd & Hh & Hmi & Hs & _).
  pose proof (days_in_month_bounds (year d) (month d) Hm).
  change (10 ^ Z.of_nat 4) with 10000. change (10 ^ Z.of_nat 2) with 100. lia.
Qed.

(** File names compare as the dates and times they show. *)
Lemma filename_compare a b :
  valid a -> valid b ->
  String.compare (filename a) (filename b) = fields_compare (fields a) (fields b).
Proof.
  intros Ha Hb.
  destruct (valid_fields a Ha) as (Ya & Ma & Da & Ha' & Mia & Sa).
  destruct (valid_fields b Hb) as (Yb & Mb & Db & Hb' & Mib & Sb).
  rewrite !filename_fields. unfold fields. cbn [fields_compare].
  repeat (rewrite compare_append by (now rewrite ?zero_padded_length);
          rewrite ?string_compare_refl, ?zero_padded_compare by assumption).
  reflexivity.
Qed.

Lemma fields_lt_compare : forall a b,
  fields_lt a b -> fields_compare a b = Lt.
Proof.
  induction a as [|x a IH]; intros [|y b]; simpl; try tauto.
  intros [H | [-> H]].
  - now apply Z.compare_lt_iff in H as ->.
  - rewrite Z.compare_refl. now apply IH.
Qed.

(** A time at least one second later shows later fields. *)
Lemma one_second_apart_fields a b :
  valid a -> valid b ->
  total_microseconds a + 1000000 <= total_microseconds b ->
  fields_lt (fields a) (fields b).
Proof.
  intros Ha Hb Hgap.
  assert (Hcases : date_lt a b
                   \/ (year a = year b /\ month a = month b /\ day a = day b)
                   \/ date_lt b a).
  { unfold date_lt. cbn [fields_lt]. lia. }
  unfold fields. cbn [fields_lt].
  destruct Hcases as [H | [(Ey & Em & Ed) | H]].
  - unfold date_lt in H. cbn [fields_lt] in H. lia.
  - assert (Eo : toordinal a = toordinal b)
      by (unfold toordinal; now rewrite Ey, Em, Ed).
    unfold total_microseconds in Hgap. rewrite Eo in Hgap.
    destruct Ha as (_ & _ & _ & ? & ? & ? & ?).
    destruct Hb as (_ & _ & _ & ? & ? & ? & ?). lia.
  - pose proof (toordinal_lt b a Hb Ha H) as Ho.
    unfold total_microseconds in Hgap.
    destruct Ha as (_ & _ & _ & ? & ? & ? & ?).
    destruct Hb as (_ & _ & _ & ? & ? & ? & ?). lia.
Qed.

(** C8.  When the time of one run is at least one second before the time
    of another, the name of its output file comes strictly before the name
    of the other's in the lexicographic order of strings, and the other's
    strictly after. *)
Theorem C8_filenames_sort_by_time a b :
  valid a -> valid b ->
  total_microseconds a + 1000000 <= total_microseconds b ->
  String.compare (filename a) (filename b) = Lt
  /\ String.ltb (filename a) (filename b) = true
  /\ String.compare (filename b) (filename a) = Gt.
Proof.
  intros Ha Hb Hgap.
  assert (H : String.compare (filename a) (filename b) = Lt).
  { rewrite filename_compare by assumption.
    apply fields_lt_compare. now apply one_second_apart_fields. }
  split; [exact H|]. split.
  - unfold String.ltb. now rewrite H.
  - rewrite String.compare_antisym, H. reflexivity.
Qed.

End FileNames.

(* ================================================================== *)
(** * The properties on the sample inputs *)
(* ================================================================== *)

Section Witnesses.
Import Py Proc Sys Bench Spec Examples.

(** C2 on a run that starts with DATABASE set to "mine.db". *)
Lemma C2_database_restored_witness :
  exists st,
    main default_args world (initial [("DATABASE", "mine.db")]%string) = (Ok tt, st)
    /\ getitem (environ st) "DATABASE" = Some "mine.db"%string.
Proof.
  exists (snd (main default_args world (initial [("DATABASE", "mine.db")]%string))).
  assert (Hrun : main default_args world (initial [("DATABASE", "mine.db")]%string)
                 = (Ok tt, snd (main default_args world
                                  (initial [("DATABASE", "mine.db")]%string))))
    by (vm_compute; reflexivity).
  split; [exact Hrun|].
  destruct (C2_database_restored default_args world _ _ Hrun) as (_ & H & _).
  apply H. reflexivity.
Defined.

(** C3 with three repetitions. *)
Lemma C3_samples_per_variant_witness :
  (1 <= 3)%Z
  /\ exists d st', benchmarks 3 world (initial []) = (Ok d, st')
                   /\ keys d = variants.
Proof.
  split; [lia|].
  destruct (C3_samples_per_variant 3 world (initial []) ltac:(lia))
    as (_ & _ & d & st' & H & Hk & _).
  exists d, st'. split; [exact H | exact Hk].
Defined.

(** C4 on the run with the default options. *)
Lemma C4_record_keys_witness :
  exists st,
    main default_args world (initial []) = (Ok tt, st)
    /\ exists obj, dumps (trace st) = [(filename (wall_clock world), obj)]
                   /\ getitem obj "note" = Some (Text "No note.").
Proof.
  exists (snd (main default_args world (initial []))).
  assert (Hrun : main default_args world (initial [])
                 = (Ok tt, snd (main default_args world (initial []))))
    by (vm_compute; reflexivity).
  split; [exact Hrun|].
  destruct (C4_record_keys default_args world [] _ Hrun)
    as (obj & H & _ & _ & Hn).
  exists obj. split; [exact H | exact Hn].
Defined.

(** C5 with three repetitions. *)
Lemma C5_mean_printed_per_variant_witness :
  (1 <= 3)%Z
  /\ exists d st', benchmarks 3 world (initial []) = (Ok d, st')
                   /\ trace st' = progress 3 d variants.
Proof.
  split; [lia|].
  destruct (C5_mean_printed_per_variant 3 world (initial []) ltac:(lia))
    as (d & st' & H & Ht & _).
  exists d, st'. split; [exact H | exact Ht].
Defined.

(** C8 across the turn of the year. *)
Lemma C8_filenames_sort_by_time_witness :
  Datetime.valid new_years_eve /\ Datetime.valid new_year
  /\ (Datetime.total_microseconds new_years_eve + 1000000
      <= Datetime.total_microseconds new_year)%Z
  /\ String.ltb (filename new_years_eve) (filename new_year) = true.
Proof.
  assert (Ha : Datetime.valid new_years_eve)
    by (vm_compute; repeat split; solve [reflexivity | discriminate]).
  assert (Hb : Datetime.valid new_year)
    by (vm_compute; repeat split; solve [reflexivity | discriminate]).
  assert (Hgap : (Datetime.total_microseconds new_years_eve + 1000000
                  <= Datetime.total_microseconds new_year)%Z)
    by (vm_compute; discriminate).
  split; [exact Ha | split; [exact Hb | split; [exact Hgap |]]].
  destruct (C8_filenames_sort_by_time new_years_eve new_year Ha Hb Hgap)
    as (_ & H & _).
  exact H.
Defined.

(** C9 on a run with [--samples 0] and the profile flag set. *)
Lemma C9_no_samples_witness :
  (samples no_samples < 1)%Z
  /\ exists st, main no_samples world (initial []) = (Raise ZeroDivisionError, st)
                /\ getitem (environ st) "DATABASE" = Some "bench.db"%string.
Proof.
  assert (H : (samples no_samples < 1)%Z) by (simpl; lia).
  split; [exact H|].
  destruct (C9_no_samples no_samples world [] H) as (st & Hrun & Hdb & _).
  exists st. split; [exact Hrun | exact Hdb].
Defined.

(** C10 on [--samples 2 --profile False]. *)
Lemma C10_profile_flag_witness :
  exists args,
    parse_args int_of_digit_str profile_False = Some args
    /\ profile args = true.
Proof.
  exists {| note := "No note."; samples := 2; profile := true |}.
  split; [reflexivity|].
  destruct (C10_profile_flag int_of_digit_str profile_False _ eq_refl)
    as (_ & H & _).
  apply H. reflexivity.
Defined.

End Witnesses.

(* ================================================================== *)
(** * Further properties of a run *)
(* ================================================================== *)

Section RunFacts.
Import Py Proc Sys Bench Spec Observe.

(** ** The trace and the environment of a run, whatever its outcome *)

Lemma main_trace args w env :
  trace (snd (main args w (initial env))) =
    if Nat.eqb (Z.to_nat (samples args)) 0
    then Print (Acknowledged (note args) (samples args) (profile args))
           :: SetEnv "DATABASE" "bench.db"
           :: profiling_trace (profile args) w
    else sampled_trace args w
           ++ SetEnv "DATABASE" (get env "DATABASE" "solutions.db"%string)
           :: (if can_open w (filename (wall_clock w))
               then [Open (filename (wall_clock w));
                     Dump (filename (wall_clock w)) (record args w)]
               else []).
Proof.
  destruct (Nat.eqb_spec (Z.to_nat (samples args)) 0) as [E|E].
  - now rewrite main_zero.
  - rewrite main_sampled by assumption. now destruct (can_open _ _).
Qed.

Lemma main_environ args w env :
  environ (snd (main args w (initial env))) =
    if Nat.eqb (Z.to_nat (samples args)) 0
    then setitem env "DATABASE" "bench.db"%string
    else setitem (setitem env "DATABASE" "bench.db"%string) "DATABASE"
           (get env "DATABASE" "solutions.db"%string).
Proof.
  destruct (Nat.eqb_spec (Z.to_nat (samples args)) 0) as [E|E].
  - now rewrite main_zero.
  - rewrite main_sampled by assumption. now destruct (can_open _ _).
Qed.

Lemma main_outcome args w env :
  fst (main args w (initial env)) =
    if Nat.eqb (Z.to_nat (samples args)) 0 then Raise ZeroDivisionError
    else if can_open w (filename (wall_clock w)) then Ok tt
    else Raise (OSError (filename (wall_clock w))).
Proof.
  destruct (Nat.eqb_spec (Z.to_nat (samples args)) 0) as [E|E].
  - now rewrite main_zero.
  - rewrite main_sampled by assumption. now destruct (can_open _ _).
Qed.

Lemma main_counters args w env :
  ticks (snd (main args w (initial env))) = 2 * Z.to_nat (samples args) * 4
  /\ spawned (snd (main args w (initial env)))
     = (if profile args then 1 else 0) + Z.to_nat (samples args) * 4.
Proof.
  destruct (Nat.eq_dec (Z.to_nat (samples args)) 0) as [E|E].
  - rewrite main_zero by assumption. cbn [snd ticks spawned]. rewrite E.
    split; [reflexivity | now rewrite Nat.add_0_r].
  - rewrite main_sampled by assumption.
    destruct (can_open _ _); cbn [snd ticks spawned]; split; reflexivity.
Qed.

(** ** Projections of the pieces of a trace *)

Lemma setenvs_app tr tr' : setenvs (tr ++ tr') = setenvs tr ++ setenvs tr'.
Proof.
  induction tr as [|e tr IH]; simpl; [reflexivity|].
  destruct e; simpl; now rewrite IH.
Qed.

Lemma opens_app tr tr' : opens (tr ++ tr') = opens tr ++ opens tr'.
Proof.
  induction tr as [|e tr IH]; simpl; [reflexivity|].
  destruct e; simpl; now rewrite IH.
Qed.

Lemma quiet_repeat_run argv capture c :
  setenvs (repeat (Run argv capture) c) = []
  /\ opens (repeat (Run argv capture) c) = [].
Proof. induction c; simpl; auto. Qed.

Lemma quiet_sampling_trace w c : forall vs t,
  setenvs (sampling_trace w c t vs) = [] /\ opens (sampling_trace w c t vs) = [].
Proof.
  induction vs as [|v vs IH]; intros t; simpl; [auto|].
  rewrite setenvs_app, opens_app.
  destruct (quiet_repeat_run (solve_argv v) true c) as [-> ->].
  cbn [setenvs opens app]. apply IH.
Qed.

Lemma quiet_profiling_trace p w :
  setenvs (profiling_trace p w) = [] /\ opens (profiling_trace p w) = [].
Proof. destruct p; simpl; auto. Qed.


Lemma opens_sampled_trace args w : opens (sampled_trace args w) = [].
Proof.
  unfold sampled_trace. cbn [opens]. rewrite opens_app.
  destruct (quiet_profiling_trace (profile args) w) as [_ ->].
  now destruct (quiet_sampling_trace w (Z.to_nat (samples args)) variants 0)
    as [_ ->].
Qed.

Lemma dumps_sampled_trace args w : dumps (sampled_trace args w) = [].
Proof.
  unfold sampled_trace. cbn [dumps].
  rewrite dumps_app, dumps_sampling_trace. now destruct (profile args).
Qed.

(** ** DATABASE along a trace *)

Lemma database_after_app tr : forall db tr',
  database_after db (tr ++ tr') = database_after (database_after db tr) tr'.
Proof.
  induction tr as [|e tr IH]; intros db tr'; simpl; [reflexivity|].
  destruct e; simpl; apply IH.
Qed.

Lemma runs_under_app tr : forall db tr',
  runs_under db (tr ++ tr')
  = runs_under db tr ++ runs_under (database_after db tr) tr'.
Proof.
  induction tr as [|e tr IH]; intros db tr'; simpl; [reflexivity|].
  destruct e; simpl; now rewrite IH.
Qed.

(** A stretch of the trace without assignments leaves DATABASE alone. *)
Lemma quiet_database tr : forall db,
  setenvs tr = [] ->
  database_after db tr = db
  /\ runs_under db tr = map (fun r => (fst r, db)) (runs tr).
Proof.
  induction tr as [|e tr IH]; intros db H; simpl; [auto|].
  destruct e; simpl in *; try discriminate H;
    destruct (IH db H) as [-> ->]; auto.
Qed.

Lemma quiet_sampling args w :
  setenvs (profiling_trace (profile args) w
             ++ sampling_trace w (Z.to_nat (samples args)) 0 variants) = [].
Proof.
  rewrite setenvs_app.
  destruct (quiet_profiling_trace (profile args) w) as [-> _].
  now destruct (quiet_sampling_trace w (Z.to_nat (samples args)) variants 0)
    as [-> _].
Qed.

Lemma getitem_app_present {V : Type} (d d' : dict V) k :
  In k (keys d) -> getitem (d ++ d') k = getitem d k.
Proof.
  induction d as [|[k0 v0] d IH]; cbn [keys map fst In app getitem]; [tauto|].
  intros H. destruct (String.eqb_spec k0 k) as [->|Hne]; [reflexivity|].
  apply IH. destruct H; [contradiction | assumption].
Qed.

Lemma keys_setitem_present {V : Type} (d : dict V) k v :
  In k (keys d) -> keys (setitem d k v) = keys d.
Proof.
  induction d as [|[k0 v0] d IH]; simpl; [tauto|].
  intros H. destruct (String.eqb_spec k0 k) as [->|Hne]; [reflexivity|].
  simpl. f_equal. apply IH. destruct H; [contradiction | assumption].
Qed.

End RunFacts.

Section MoreProperties.
Import Py Proc Sys Bench Spec Observe.

(** X3.  Whatever the outcome of a run, every child process it starts is
    started while DATABASE is "bench.db": the override comes before the
    first child and the restoration after the last.  (The value of
    DATABASE replayed along the trace is the one the environment holds at
    the end.) *)
Theorem X3_children_see_bench_db args w env :
  map fst (runs_under (getitem env "DATABASE")
             (trace (snd (main args w (initial env)))))
  = map fst (runs (trace (snd (main args w (initial env)))))
  /\ (forall argv db,
        In (argv, db) (runs_under (getitem env "DATABASE")
                         (trace (snd (main args w (initial env))))) ->
        db = Some "bench.db"%string)
  /\ database_after (getitem env "DATABASE")
       (trace (snd (main args w (initial env))))
     = getitem (environ (snd (main args w (initial env)))) "DATABASE".
Proof.
  rewrite main_trace, main_environ.
  assert (Hmap : forall (db : option string) l,
            map fst (map (fun r : list string * bool => (fst r, db)) l)
            = map fst l).
  { intros db l. rewrite map_map. now apply map_ext. }
  assert (Hin : forall (db db' : option string) argv l,
            In (argv, db') (map (fun r : list string * bool => (fst r, db)) l) ->
            db' = db).
  { intros db db' argv l H. apply in_map_iff in H.
    destruct H as (r & Hr & _). congruence. }
  destruct (Nat.eqb_spec (Z.to_nat (samples args)) 0) as [E|E].
  - cbn [runs_under runs database_after String.eqb Ascii.eqb Bool.eqb].
    destruct (quiet_profiling_trace (profile args) w) as [Hq _].
    destruct (quiet_database _ (Some "bench.db"%string) Hq) as [-> ->].
    split; [apply Hmap|]. split; [intros argv db; apply Hin|].
    now rewrite getitem_setitem_same.
  - unfold sampled_trace.
    cbn [app runs_under runs database_after String.eqb Ascii.eqb Bool.eqb].
    pose proof (quiet_database _ (Some "bench.db"%string) (quiet_sampling args w))
      as [HQ HQ'].
    set (Q := profiling_trace (profile args) w
                ++ sampling_trace w (Z.to_nat (samples args)) 0 variants) in *.
    rewrite runs_under_app, (database_after_app Q), runs_app, HQ, HQ'.
    rewrite getitem_setitem_same.
    destruct (can_open w (filename (wall_clock w)));
      cbn [runs_under runs database_after String.eqb Ascii.eqb Bool.eqb];
      rewrite !app_nil_r;
      (split; [apply Hmap|]; split; [intros argv db; apply Hin | reflexivity]).
Qed.

(** X5.  When the sample count is at least one but the output file cannot
    be opened, the run ends with OSError after the whole sampling was done
    and printed; nothing is opened or dumped, so the measurements are
    lost, and DATABASE has already been restored. *)
Theorem X5_output_file_cannot_be_opened args w env :
  (1 <= samples args)%Z ->
  can_open w (filename (wall_clock w)) = false ->
  exists st,
    main args w (initial env) = (Raise (OSError (filename (wall_clock w))), st)
    /\ trace st = sampled_trace args w
                    ++ [SetEnv "DATABASE" (get env "DATABASE" "solutions.db"%string)]
    /\ runs (trace st)
       = profiler_runs (profile args)
           ++ solver_runs (Z.to_nat (samples args)) variants
    /\ opens (trace st) = [] /\ dumps (trace st) = []
    /\ getitem (environ st) "DATABASE"
       = Some (get env "DATABASE" "solutions.db"%string).
Proof.
  intros Hn Hopen. assert (E : Z.to_nat (samples args) <> 0) by lia.
  rewrite main_sampled by assumption. rewrite Hopen.
  eexists; split; [reflexivity|]. cbn [trace environ].
  split; [reflexivity|].
  rewrite runs_app, opens_app, dumps_app, runs_sampled_trace,
    opens_sampled_trace, dumps_sampled_trace.
  cbn [runs opens dumps]. rewrite !app_nil_r.
  repeat split. apply getitem_setitem_same.
Qed.

(** X6.  The object that a completed run dumps holds, for the [j]-th
    variant, exactly the [n] differences between the clock readings taken
    after and before that variant's solver runs: its [k]-th entry is the
    reading number [2 (j n + k) + 1] minus the reading number
    [2 (j n + k)].  Adding the note overwrites none of them. *)
Theorem X6_dumped_samples args w env st :
  main args w (initial env) = (Ok tt, st) ->
  exists obj,
    dumps (trace st) = [(filename (wall_clock w), obj)]
    /\ forall j v, nth_error variants j = Some v ->
         exists m,
           samples_of obj v = Some m
           /\ List.length m = Z.to_nat (samples args)
           /\ forall k, k < Z.to_nat (samples args) ->
                nth_error m k
                = Some (PrimFloat.sub
                          (clock w (S (2 * (j * Z.to_nat (samples args) + k))))
                          (clock w (2 * (j * Z.to_nat (samples args) + k)))).
Proof.
  intros Hrun. pose proof (dumps_main args w env) as Hd.
  pose proof (main_outcome args w env) as Ho.
  rewrite Hrun in Hd, Ho. cbn [fst snd] in Hd, Ho.
  destruct (Nat.eqb_spec (Z.to_nat (samples args)) 0) as [E|E];
    [discriminate Ho|].
  destruct (can_open w (filename (wall_clock w))); [|discriminate Ho].
  cbn [orb negb] in Hd.
  exists (record args w). split; [exact Hd|].
  intros j v Hj. unfold samples_of, record.
  assert (Hv : In v variants) by (eapply nth_error_In; eauto).
  assert (Hget : getitem (measured w (Z.to_nat (samples args)) 0 variants
                            ++ [("note"%string, Text (note args))]) v
                 = getitem (measured w (Z.to_nat (samples args)) 0 variants) v)
    by (apply getitem_app_present; now rewrite keys_measured).
  rewrite Hget, (getitem_measured _ _ _ _ j) by (apply variants_NoDup || assumption).
  eexists; split; [reflexivity|]. split; [apply elapsed_from_length|].
  intros k Hk. rewrite elapsed_from_nth by assumption. unfold elapsed.
  do 3 f_equal; lia.
Qed.

(** X8.  The body of the outer loop, with at least one repetition, puts the
    fresh sequence of the variant in the place of whatever the dictionary
    held under that key, and leaves every other entry and the order of the
    keys as they are; a key that is new goes to the end. *)
Theorem X8_benchmark_replaces_the_sequence n v d w st :
  (1 <= n)%Z ->
  exists d' st',
    benchmark n v d w st = (Ok d', st')
    /\ samples_of d' v = Some (elapsed_from w (ticks st) (Z.to_nat n))
    /\ (forall k, k <> v -> getitem d' k = getitem d k)
    /\ (In v (keys d) -> keys d' = keys d)
    /\ (~ In v (keys d) -> keys d' = keys d ++ [v])
    /\ environ st' = environ st.
Proof.
  intros Hn. rewrite benchmark_spec by lia.
  do 2 eexists; split; [reflexivity|]. cbn [environ].
  split; [unfold samples_of; now rewrite getitem_setitem_same|].
  split; [intros k Hk; now apply getitem_setitem_other|].
  split; [apply keys_setitem_present|].
  split; [|reflexivity].
  intros H. now rewrite setitem_fresh, keys_app.
Qed.


End MoreProperties.

(* ================================================================== *)
(** * Further properties of the file name *)
(* ================================================================== *)

Section MoreFileNames.
Import Datetime Bench Spec Observe.
Local Open Scope Z_scope.

Lemma fields_compare_eq : forall a b,
  List.length a = List.length b -> fields_compare a b = Eq -> a = b.
Proof.
  induction a as [|x a IH]; intros [|y b] Hlen H; try discriminate Hlen;
    [reflexivity|].
  simpl in H. destruct (Z.compare_spec x y) as [->|L|L]; try discriminate H.
  f_equal. apply IH; [now injection Hlen | assumption].
Qed.

Lemma fields_compare_refl a : fields_compare a a = Eq.
Proof. induction a as [|x a IH]; simpl; [|rewrite Z.compare_refl]; auto. Qed.

Lemma fields_compare_lt : forall a b,
  fields_compare a b = Lt -> fields_lt a b.
Proof.
  induction a as [|x a IH]; intros [|y b] H; simpl in *; try discriminate H.
  destruct (Z.compare_spec x y) as [->|L|L]; try discriminate H; auto.
Qed.

(** Earlier fields mean an earlier time, by at least the part of a second
    that the name does not show. *)
Lemma fields_lt_time a b :
  valid a -> valid b -> fields_lt (fields a) (fields b) ->
  total_microseconds a < total_microseconds b.
Proof.
  intros Ha Hb H. unfold fields in H. cbn [fields_lt] in H.
  assert (Hcases :
    date_lt a b
    \/ (year a = year b /\ month a = month b /\ day a = day b
        /\ (hour a < hour b
            \/ (hour a = hour b
                /\ (minute a < minute b
                    \/ (minute a = minute b /\ second a < second b)))))).
  { unfold date_lt. cbn [fields_lt]. lia. }
  unfold total_microseconds.
  destruct Hcases as [Hd | (Ey & Em & Ed & Ht)].
  - pose proof (toordinal_lt a b Ha Hb Hd) as Ho.
    destruct Ha as (_ & _ & _ & ? & ? & ? & ?).
    destruct Hb as (_ & _ & _ & ? & ? & ? & ?). lia.
  - assert (Eo : toordinal a = toordinal b)
      by (unfold toordinal; now rewrite Ey, Em, Ed).
    rewrite Eo.
    destruct Ha as (_ & _ & _ & ? & ? & ? & ?).
    destruct Hb as (_ & _ & _ & ? & ? & ? & ?). lia.
Qed.

Lemma string_forallb_append p a b :
  string_forallb p (a ++ b) = (string_forallb p a && string_forallb p b)%bool.
Proof. induction a as [|c a IH]; simpl; [|rewrite IH, andb_assoc]; auto. Qed.

Lemma stamp_char_digit n : stamp_char (digit n) = true.
Proof.
  unfold digit.
  pose proof (Z.mod_pos_bound n 10 eq_refl) as Hn.
  assert (Hi : (Z.to_nat (n mod 10) < 10)%nat) by lia.
  revert Hi. generalize (Z.to_nat (n mod 10)) as i. intros i Hi.
  do 10 (destruct i as [|i]; [reflexivity|]). lia.
Qed.

Lemma stamp_char_zero_padded w : forall n,
  string_forallb stamp_char (zero_padded w n) = true.
Proof.
  induction w as [|w IH]; intros n; cbn [zero_padded]; [reflexivity|].
  rewrite string_forallb_append, IH. cbn [string_forallb andb].
  now rewrite stamp_char_digit.
Qed.

Lemma stamp_fields d :
  strftime d stamp_format =
    (zero_padded 4 (year d) ++ "-" ++ zero_padded 2 (month d)
     ++ "-" ++ zero_padded 2 (day d) ++ "_" ++ zero_padded 2 (hour d)
     ++ "-" ++ zero_padded 2 (minute d) ++ "-" ++ zero_padded 2 (second d))%string.
Proof. reflexivity. Qed.

(** X10.  Two times that a [datetime] can hold give the same file name
    exactly when they agree from the year down to the second: the name
    does not show the microseconds, so two runs that reach the end within
    one second write to the same file. *)
Theorem X10_same_name_same_second a b :
  valid a -> valid b ->
  (filename a = filename b <-> fields a = fields b).
Proof.
  intros Ha Hb. pose proof (filename_compare a b Ha Hb) as Hc. split.
  - intros E. rewrite E, string_compare_refl in Hc.
    apply fields_compare_eq; [reflexivity | now symmetry].
  - intros E. rewrite E, fields_compare_refl in Hc.
    now apply String.compare_eq_iff.
Qed.

(** X11.  The order of the names never contradicts the order of the
    times: when the name of one time comes before the name of another,
    the first time is the earlier one, and when it comes after, the later
    one. *)
Theorem X11_name_order_is_time_order a b :
  valid a -> valid b ->
  (String.compare (filename a) (filename b) = Lt ->
   total_microseconds a < total_microseconds b)
  /\ (String.compare (filename a) (filename b) = Gt ->
      total_microseconds b < total_microseconds a).
Proof.
  intros Ha Hb. split; intros H.
  - rewrite filename_compare in H by assumption.
    apply fields_lt_time; try assumption. now apply fields_compare_lt.
  - rewrite String.compare_antisym in H.
    assert (H' : String.compare (filename b) (filename a) = Lt)
      by (destruct (String.compare (filename b) (filename a));
          simpl in H; congruence).
    rewrite filename_compare in H' by assumption.
    apply fields_lt_time; try assumption. now apply fields_compare_lt.
Qed.

(** X12.  Whatever [datetime.now()] returns, the output file is the
    directory "dev/bench/" followed by a time stamp of nineteen characters,
    each a decimal digit, "-" or "_", followed by ".json": 34 characters in
    all, and no character of the stamp can start another directory. *)
Theorem X12_shape_of_the_file_name d :
  filename d = ("dev/bench/" ++ strftime d stamp_format ++ ".json")%string
  /\ String.length (strftime d stamp_format) = 19%nat
  /\ String.length (filename d) = 34%nat
  /\ string_forallb stamp_char (strftime d stamp_format) = true.
Proof.
  split; [reflexivity|].
  assert (Hlen : String.length (strftime d stamp_format) = 19%nat).
  { rewrite stamp_fields.
    repeat rewrite ?length_append, ?zero_padded_length. reflexivity. }
  split; [exact Hlen|]. split.
  - unfold filename. rewrite !length_append, Hlen. reflexivity.
  - rewrite stamp_fields.
    repeat rewrite ?string_forallb_append, ?stamp_char_zero_padded.
    reflexivity.
Qed.

End MoreFileNames.

(* ================================================================== *)
(** * The further properties on the sample inputs *)
(* ================================================================== *)

Section MoreWitnesses.
Import Py Proc Sys Bench Spec Examples Observe.

(** X5 on the default options, with an output directory that cannot be
    written. *)
Lemma X5_output_file_cannot_be_opened_witness :
  (1 <= samples default_args)%Z
  /\ can_open read_only_world (filename (wall_clock read_only_world)) = false
  /\ exists st,
       fst (main default_args read_only_world (initial []))
       = Raise (OSError "dev/bench/2024-03-09_07-05-01.json")
       /\ snd (main default_args read_only_world (initial [])) = st
       /\ dumps (trace st) = []
       /\ getitem (environ st) "DATABASE" = Some "solutions.db"%string.
Proof.
  assert (Hn : (1 <= samples default_args)%Z) by (simpl; lia).
  assert (Hopen : can_open read_only_world
                    (filename (wall_clock read_only_world)) = false)
    by reflexivity.
  split; [exact Hn | split; [exact Hopen |]].
  destruct (X5_output_file_cannot_be_opened default_args read_only_world []
              Hn Hopen) as (st & Hrun & _ & _ & _ & Hd & Hdb).
  exists st. rewrite Hrun. cbn [fst snd].
  split; [vm_compute; reflexivity|].
  split; [reflexivity|]. split; [exact Hd | exact Hdb].
Defined.

(** X6 on the default run: the second sample of the third variant. *)
Lemma X6_dumped_samples_witness :
  exists st,
    main default_args world (initial []) = (Ok tt, st)
    /\ exists obj m,
         dumps (trace st) = [(filename (wall_clock world), obj)]
         /\ samples_of obj "4-10000-1-2" = Some m
         /\ nth_error m 1 = Some (PrimFloat.sub (clock world 15) (clock world 14)).
Proof.
  exists (snd (main default_args world (initial []))).
  assert (Hrun : main default_args world (initial [])
                 = (Ok tt, snd (main default_args world (initial []))))
    by (vm_compute; reflexivity).
  split; [exact Hrun|].
  destruct (X6_dumped_samples default_args world [] _ Hrun) as (obj & Hd & H).
  destruct (H 2 "4-10000-1-2"%string eq_refl) as (m & Hm & _ & Hk).
  exists obj, m. split; [exact Hd|]. split; [exact Hm|].
  apply (Hk 1). simpl. lia.
Defined.

(** X8 on a dictionary that holds a stale sequence for the variant. *)
Lemma X8_benchmark_replaces_the_sequence_witness :
  (1 <= 2)%Z
  /\ exists d' st',
       benchmark 2 "2-10000-1-2" stale world (initial []) = (Ok d', st')
       /\ samples_of d' "2-10000-1-2" = Some (elapsed_from world 0 2)
       /\ keys d' = keys stale.
Proof.
  split; [lia|].
  destruct (X8_benchmark_replaces_the_sequence 2 "2-10000-1-2" stale world
              (initial []) ltac:(lia))
    as (d' & st' & Hrun & Hs & _ & Hk & _).
  exists d', st'. split; [exact Hrun|]. split; [exact Hs|].
  apply Hk. simpl. now left.
Defined.

(** X10 on two times within one second. *)
Lemma X10_same_name_same_second_witness :
  Datetime.valid noon /\ Datetime.valid just_after_noon
  /\ filename noon = filename just_after_noon.
Proof.
  assert (Ha : Datetime.valid noon)
    by (vm_compute; repeat split; solve [reflexivity | discriminate]).
  assert (Hb : Datetime.valid just_after_noon)
    by (vm_compute; repeat split; solve [reflexivity | discriminate]).
  split; [exact Ha | split; [exact Hb |]].
  apply (proj2 (X10_same_name_same_second noon just_after_noon Ha Hb)).
  reflexivity.
Defined.

(** X11 on noon and one o'clock. *)
Lemma X11_name_order_is_time_order_witness :
  Datetime.valid noon /\ Datetime.valid one_o_clock
  /\ (Datetime.total_microseconds noon
      < Datetime.total_microseconds one_o_clock)%Z.
Proof.
  assert (Ha : Datetime.valid noon)
    by (vm_compute; repeat split; solve [reflexivity | discriminate]).
  assert (Hb : Datetime.valid one_o_clock)
    by (vm_compute; repeat split; solve [reflexivity | discriminate]).
  split; [exact Ha | split; [exact Hb |]].
  apply (proj1 (X11_name_order_is_time_order noon one_o_clock Ha Hb)).
  vm_compute. reflexivity.
Defined.

End MoreWitnesses.

(* ================================================================== *)
(** * The run in full when every call returns *)
(* ================================================================== *)

Section HealthyRun.
Import Py Proc Sys Bench Spec Observe FullSpec.

Lemma timed_runs_app argv c : forall t,
  timed_runs argv t (S c)
  = timed_runs argv t c
      ++ [Clock (t + 2 * c); Run argv true; Clock (S (t + 2 * c))].
Proof.
  induction c as [|c IH]; intros t.
  - simpl. now rewrite Nat.add_0_r.
  - change (timed_runs argv t (S (S c)))
      with (Clock t :: Run argv true :: Clock (S t)
              :: timed_runs argv (S (S t)) (S c)).
    rewrite IH. cbn [timed_runs app].
    replace (S (S t) + 2 * c) with (t + 2 * S c) by lia. reflexivity.
Qed.

Lemma runs_timed_runs argv c : forall t,
  runs (timed_runs argv t c) = repeat (argv, true) c.
Proof. induction c; intros t; simpl; [|rewrite IHc]; reflexivity. Qed.

Lemma unclocked_timed_runs argv c : forall t,
  unclocked (timed_runs argv t c) = repeat (Run argv true) c.
Proof. induction c; intros t; simpl; [|rewrite IHc]; reflexivity. Qed.

Lemma unclocked_app tr tr' :
  unclocked (tr ++ tr') = unclocked tr ++ unclocked tr'.
Proof.
  induction tr as [|e tr IH]; simpl; [reflexivity|].
  destruct e; simpl; now rewrite IH.
Qed.

Lemma unclocked_timed_sampling w c : forall vs t,
  unclocked (timed_sampling w c t vs) = sampling_trace w c t vs.
Proof.
  induction vs as [|v vs IH]; intros t; simpl; [reflexivity|].
  rewrite unclocked_app, unclocked_timed_runs. cbn [unclocked].
  now rewrite IH.
Qed.

Lemma unclocked_profiling_trace p w :
  unclocked (profiling_trace p w) = profiling_trace p w.
Proof. now destruct p. Qed.

(** One repetition: a reading, a captured solver run, a reading. *)
Lemma full_sample_spec v z d m w st :
  getitem d v = Some (Samples m) ->
  Full.sample Full.healthy v z d w st =
    (Ok (setitem d v (Samples (m ++ [elapsed w (ticks st)]))),
     {| environ := environ st;
        trace := trace st ++ [Clock (ticks st); Run (solve_argv v) true;
                              Clock (S (ticks st))];
        ticks := S (S (ticks st));
        spawned := S (spawned st) |}).
Proof.
  intros H.
  cbv [Full.sample Full.solve_zero_by Full.subprocess_run Full.time_time
       Full.healthy append_sample bind ret environ trace ticks spawned].
  rewrite H, <- !app_assoc. reflexivity.
Qed.

Lemma full_sample_loop v xs : forall d m w st,
  getitem d v = Some (Samples m) ->
  for_each xs (Full.sample Full.healthy v) d w st =
    (Ok (setitem d v (Samples (m ++ elapsed_from w (ticks st) (List.length xs)))),
     {| environ := environ st;
        trace := trace st ++ timed_runs (solve_argv v) (ticks st) (List.length xs);
        ticks := ticks st + 2 * List.length xs;
        spawned := spawned st + List.length xs |}).
Proof.
  induction xs as [|x xs IH]; intros d m w st H.
  - cbn [for_each List.length elapsed_from timed_runs]. unfold ret.
    rewrite !app_nil_r, !Nat.add_0_r.
    rewrite (setitem_getitem_id _ _ _ H). now destruct st.
  - cbn [for_each]. unfold bind. rewrite (full_sample_spec _ _ _ _ _ _ H).
    rewrite (IH _ (m ++ [elapsed w (ticks st)])) by apply getitem_setitem_same.
    cbn [environ trace ticks spawned List.length elapsed_from timed_runs].
    rewrite setitem_setitem, <- !app_assoc. cbn [app].
    do 2 f_equal; lia.
Qed.

Lemma full_benchmark_spec n v d w st :
  Z.to_nat n <> 0 ->
  Full.benchmark Full.healthy n v d w st =
    (Ok (setitem d v (Samples (elapsed_from w (ticks st) (Z.to_nat n)))),
     {| environ := environ st;
        trace := trace st ++ timed_runs (solve_argv v) (ticks st) (Z.to_nat n)
                   ++ [Print (ZeroBy v (mean (elapsed_from w (ticks st) (Z.to_nat n))))];
        ticks := ticks st + 2 * Z.to_nat n;
        spawned := spawned st + Z.to_nat n |}).
Proof.
  intros Hn. unfold Full.benchmark, bind.
  rewrite (full_sample_loop v _ _ []) by apply getitem_setitem_same.
  rewrite range_length, setitem_setitem. cbn [app].
  unfold mean_of. rewrite getitem_setitem_same.
  unfold truediv. rewrite elapsed_from_length.
  destruct (Nat.eqb_spec (Z.to_nat n) 0) as [E|_]; [contradiction|].
  unfold lift, ret, print, emit, mean; simpl.
  now rewrite elapsed_from_length, <- app_assoc.
Qed.

Lemma full_benchmark_zero n v d w st :
  Z.to_nat n = 0 ->
  Full.benchmark Full.healthy n v d w st = (Raise ZeroDivisionError, st).
Proof.
  intros Hn. unfold Full.benchmark, bind.
  rewrite (full_sample_loop v _ _ []) by apply getitem_setitem_same.
  rewrite range_length, Hn, setitem_setitem. simpl.
  unfold mean_of. rewrite getitem_setitem_same. simpl.
  unfold raise. rewrite app_nil_r, !Nat.add_0_r. now destruct st.
Qed.

Lemma full_benchmark_loop n w : Z.to_nat n <> 0 -> forall vs d st,
  NoDup vs -> (forall v, In v vs -> ~ In v (keys d)) ->
  for_each vs (Full.benchmark Full.healthy n) d w st =
    (Ok (d ++ measured w (Z.to_nat n) (ticks st) vs),
     {| environ := environ st;
        trace := trace st ++ timed_sampling w (Z.to_nat n) (ticks st) vs;
        ticks := ticks st + 2 * Z.to_nat n * List.length vs;
        spawned := spawned st + Z.to_nat n * List.length vs |}).
Proof.
  intros Hn. induction vs as [|v vs IH]; intros d st Hnd Hfresh; simpl.
  - unfold ret. rewrite !app_nil_r, !Nat.mul_0_r, !Nat.add_0_r. now destruct st.
  - inversion Hnd as [|? ? Hv Hvs]; subst.
    unfold bind. rewrite full_benchmark_spec by assumption.
    rewrite setitem_fresh by (apply Hfresh; now left).
    rewrite IH; [| assumption |].
    + simpl. rewrite <- !app_assoc. simpl. do 2 f_equal; lia.
    + intros v' Hin. rewrite keys_app, in_app_iff. simpl.
      intros [Hd | [<- | []]]; [| contradiction].
      apply (Hfresh v'); [now right | assumption].
Qed.

Lemma full_benchmarks_spec n w st :
  Z.to_nat n <> 0 ->
  Full.benchmarks Full.healthy n w st =
    (Ok (measured w (Z.to_nat n) (ticks st) variants),
     {| environ := environ st;
        trace := trace st ++ timed_sampling w (Z.to_nat n) (ticks st) variants;
        ticks := ticks st + 2 * Z.to_nat n * 4;
        spawned := spawned st + Z.to_nat n * 4 |}).
Proof.
  intros Hn. unfold Full.benchmarks.
  rewrite (full_benchmark_loop n w Hn variants [] st variants_NoDup);
    [reflexivity|].
  intros v _ [].
Qed.

Lemma full_benchmarks_zero n w st :
  Z.to_nat n = 0 ->
  Full.benchmarks Full.healthy n w st = (Raise ZeroDivisionError, st).
Proof.
  intros Hn. unfold Full.benchmarks, variants. simpl. unfold bind.
  now rewrite full_benchmark_zero.
Qed.

Lemma full_main_zero args w env :
  Z.to_nat (samples args) = 0 ->
  Full.main Full.healthy args w (initial env) =
    (Raise ZeroDivisionError,
     {| environ := setitem env "DATABASE" "bench.db";
        trace := Print (Acknowledged (note args) (samples args) (profile args))
                   :: SetEnv "DATABASE" "bench.db"
                   :: profiling_trace (profile args) w;
        ticks := 0;
        spawned := if profile args then 1 else 0 |}).
Proof.
  intros Hn.
  cbv [Full.main bind print emit environ_get environ_set ret initial
       Full.flamegraph Full.subprocess_run Full.healthy
       environ trace ticks spawned].
  destruct (profile args); cbv [profiling_trace]; cbn [app];
    now rewrite full_benchmarks_zero.
Qed.

Lemma full_main_sampled args w env :
  Z.to_nat (samples args) <> 0 ->
  Full.main Full.healthy args w (initial env) =
    (if can_open w (filename (wall_clock w)) then Ok tt
     else Raise (OSError (filename (wall_clock w))),
     {| environ := setitem (setitem env "DATABASE" "bench.db") "DATABASE"
                     (get env "DATABASE" "solutions.db"%string);
        trace := Print (Acknowledged (note args) (samples args) (profile args))
                   :: SetEnv "DATABASE" "bench.db"
                   :: profiling_trace (profile args) w
                   ++ timed_sampling w (Z.to_nat (samples args)) 0 variants
                   ++ SetEnv "DATABASE" (get env "DATABASE" "solutions.db"%string)
                   :: (if can_open w (filename (wall_clock w))
                       then [Open (filename (wall_clock w));
                             Dump (filename (wall_clock w)) (record args w)]
                       else []);
        ticks := 2 * Z.to_nat (samples args) * 4;
        spawned := (if profile args then 1 else 0)
                   + Z.to_nat (samples args) * 4 |}).
Proof.
  intros Hn.
  cbv [Full.main bind print emit environ_get environ_set ret initial
       Full.flamegraph Full.subprocess_run Full.healthy
       environ trace ticks spawned].
  destruct (profile args) eqn:Hp;
    rewrite full_benchmarks_spec by assumption;
    cbv [datetime_now open_w emit json_dump environ trace ticks spawned];
    destruct (can_open w (filename (wall_clock w)));
    cbv [profiling_trace record]; cbn [app Nat.add];
    rewrite ?(setitem_fresh (measured _ _ _ _))
      by (rewrite keys_measured; apply note_not_variant);
    rewrite <- ?app_assoc; cbn [app]; reflexivity.
Qed.

(** Without the clock readings, the run in full is the run of [Bench.main]:
    the same outcome, environment and counters, and the same trace. *)
Lemma full_main_refines args w env :
  fst (Full.main Full.healthy args w (initial env))
  = fst (main args w (initial env))
  /\ environ (snd (Full.main Full.healthy args w (initial env)))
     = environ (snd (main args w (initial env)))
  /\ unclocked (trace (snd (Full.main Full.healthy args w (initial env))))
     = trace (snd (main args w (initial env)))
  /\ ticks (snd (Full.main Full.healthy args w (initial env)))
     = ticks (snd (main args w (initial env)))
  /\ spawned (snd (Full.main Full.healthy args w (initial env)))
     = spawned (snd (main args w (initial env))).
Proof.
  destruct (Nat.eq_dec (Z.to_nat (samples args)) 0) as [E|E].
  - rewrite full_main_zero, main_zero by assumption.
    cbn [fst snd environ trace ticks spawned unclocked].
    now rewrite unclocked_profiling_trace.
  - rewrite full_main_sampled, main_sampled by assumption.
    unfold sampled_trace.
    destruct (can_open w (filename (wall_clock w)));
      cbn [fst snd environ trace ticks spawned unclocked app];
      rewrite !unclocked_app, unclocked_profiling_trace,
        unclocked_timed_sampling; cbn [unclocked];
      rewrite <- ?app_assoc; repeat split; reflexivity.
Qed.

End HealthyRun.

(* ================================================================== *)
(** * The run in full when calls may not return *)
(* ================================================================== *)

Section FaultyRun.
Import Py Proc Sys Bench Spec Observe FullSpec.
Variable fault : nat -> option Full.Fault.

(** ** Outcomes compose *)

Lemma outcome_bind {A B : Type} (c : M A) (k : A -> M B) w st Q E :
  outcome c w st (fun a st' => outcome (k a) w st' Q E) E ->
  outcome (Proc.bind c k) w st Q E.
Proof. unfold outcome, bind. now destruct (c w st) as [[a|e] st']. Qed.

Lemma outcome_weaken {A : Type} (c : M A) w st (Q Q' : A -> State -> Prop) E :
  outcome c w st Q E -> (forall a st', Q a st' -> Q' a st') ->
  outcome c w st Q' E.
Proof. unfold outcome. destruct (c w st) as [[a|e] st']; auto. Qed.

Lemma outcome_for_each {A S : Type} (I : nat -> S -> State -> Prop) E
  (body : A -> S -> M S) w :
  (forall i x s st, I i s st -> outcome (body x s) w st (I (Datatypes.S i)) E) ->
  forall l i s st, I i s st ->
    outcome (for_each l body s) w st (I (i + List.length l)) E.
Proof.
  intros Hbody. induction l as [|x l IH]; intros i s st HI; cbn [for_each].
  - unfold outcome, ret. cbn [List.length]. now rewrite Nat.add_0_r.
  - apply outcome_bind. apply (outcome_weaken _ _ _ _ _ _ (Hbody i x s st HI)).
    intros s' st' HI'. cbn [List.length].
    replace (i + Datatypes.S (List.length l))
      with (Datatypes.S i + List.length l) by lia.
    now apply IH.
Qed.

(** ** The sampling *)

Lemma sound_refl st : sound fault st st.
Proof. unfold sound. repeat split; auto. intros k Hk. lia. Qed.

(** One repetition keeps the sampling sound, or stops it. *)
Lemma sample_outcome n s0 v z d i w st :
  (exists m, getitem d v = Some (Samples m) /\ List.length m = i) ->
  sound fault s0 st ->
  outcome (Full.sample fault v z d) w st
    (fun d' st' =>
       (exists m, getitem d' v = Some (Samples m) /\ List.length m = S i)
       /\ sound fault s0 st')
    (stopped fault n s0).
Proof.
  intros (m & Hm & Hlen) Hs. destruct st as [env tr t sp].
  unfold sound in Hs. cbn [environ trace ticks spawned] in Hs.
  destruct Hs as (Henv & Hshown & Hle & Hnone).
  unfold outcome.
  cbv [Full.sample Full.solve_zero_by Full.subprocess_run Full.time_time
       append_sample bind ret raise andb environ trace ticks spawned].
  destruct (fault sp) as [[|]|] eqn:F.
  - (* the program is missing *)
    unfold stopped. cbn [environ trace spawned hd solve_argv].
    rewrite shown_app. cbn [shown]. rewrite app_nil_r.
    repeat split; auto.
  - (* the output does not decode *)
    unfold stopped. cbn [environ trace spawned].
    rewrite !shown_app. cbn [shown]. rewrite !app_nil_r.
    repeat split; auto. right. right. split; [reflexivity|].
    exists sp. split; [lia | assumption].
  - (* the call returns *)
    rewrite Hm. split.
    + exists (m ++ [PrimFloat.sub (clock w (S t)) (clock w t)]).
      rewrite getitem_setitem_same, length_app. cbn [List.length].
      split; [reflexivity | lia].
    + unfold sound. cbn [environ trace spawned].
      rewrite !shown_app. cbn [shown]. rewrite !app_nil_r.
      repeat split; auto.
      intros k Hk. destruct (Nat.eq_dec k sp) as [->|Hne];
        [assumption | apply Hnone; lia].
Qed.

(** One variant keeps the sampling sound and has had repetitions, or stops
    it. *)
Lemma benchmark_outcome n s0 v d w st :
  sound fault s0 st ->
  outcome (Full.benchmark fault n v d) w st
    (fun _ st' => Z.to_nat n <> 0 /\ sound fault s0 st')
    (stopped fault n s0).
Proof.
  intros Hs. unfold Full.benchmark. apply outcome_bind.
  pose proof (outcome_for_each
    (fun i d' st' =>
       (exists m, getitem d' v = Some (Samples m) /\ List.length m = i)
       /\ sound fault s0 st')
    (stopped fault n s0) (Full.sample fault v) w) as Hloop.
  eapply outcome_weaken.
  - apply (Hloop (fun i x s st' H =>
                    sample_outcome n s0 v x s i w st' (proj1 H) (proj2 H))
             (range n) 0).
    split; [|exact Hs]. exists []. now rewrite getitem_setitem_same.
  - cbn beta. intros d' st' ((m & Hm & Hlen) & Hs').
    rewrite range_length in Hlen. cbn [Nat.add] in Hlen.
    unfold outcome.
    cbv [bind mean_of]. rewrite Hm.
    unfold truediv. rewrite Hlen.
    destruct Hs' as (Henv & Hshown & Hle & Hnone).
    destruct (Nat.eqb_spec (Z.to_nat n) 0) as [E|E].
    + cbv [lift raise]. unfold stopped. repeat split; auto.
    + cbv [lift ret print emit]. split; [assumption|].
      unfold sound. cbn [environ trace spawned].
      rewrite shown_app. cbn [shown]. rewrite app_nil_r.
      repeat split; auto.
Qed.

(** The whole sampling. *)
Lemma benchmarks_outcome n w st :
  outcome (Full.benchmarks fault n) w st
    (fun _ st' => Z.to_nat n <> 0 /\ sound fault st st')
    (stopped fault n st).
Proof.
  unfold Full.benchmarks.
  pose proof (outcome_for_each
    (fun i (_ : dict JValue) st' =>
       sound fault st st' /\ (i <> 0 -> Z.to_nat n <> 0))
    (stopped fault n st) (Full.benchmark fault n) w) as Hloop.
  eapply outcome_weaken.
  - apply (Hloop (fun i v d st' H =>
                    outcome_weaken _ _ _ _ _ _
                      (benchmark_outcome n st v d w st' (proj1 H))
                      (fun _ st'' H' => conj (proj2 H') (fun _ => proj1 H')))
             variants 0).
    split; [apply sound_refl | congruence].
  - cbn beta. intros d st' [Hs Hn]. split; [|exact Hs].
    apply Hn. discriminate.
Qed.

(** ** The children are not looked at *)









Lemma outcome_conseq {A : Type} (c : M A) w st
  (Q Q' : A -> State -> Prop) (E E' : exn -> State -> Prop) :
  outcome c w st Q E ->
  (forall a st', Q a st' -> Q' a st') -> (forall e st', E e st' -> E' e st') ->
  outcome c w st Q' E'.
Proof. unfold outcome. destruct (c w st) as [[a|e] st']; auto. Qed.

(** ** The whole run *)

(** How a run ends, and with which environment. *)
Lemma full_main_cases args w env :
  outcome (Full.main fault args) w (initial env)
    (fun _ st =>
       Z.to_nat (samples args) <> 0
       /\ can_open w (filename (wall_clock w)) = true
       /\ environ st
          = setitem (setitem env "DATABASE" "bench.db"%string) "DATABASE"
              (get env "DATABASE" "solutions.db"%string)
       /\ (profile args = true -> fault 0 <> Some Full.ProgramMissing)
       /\ forall k, (if profile args then 1 else 0) <= k < spawned st ->
                    fault k = None)
    (fun e st =>
       (e = OSError (filename (wall_clock w))
        /\ can_open w (filename (wall_clock w)) = false
        /\ Z.to_nat (samples args) <> 0
        /\ environ st
           = setitem (setitem env "DATABASE" "bench.db"%string) "DATABASE"
               (get env "DATABASE" "solutions.db"%string))
       \/ (environ st = setitem env "DATABASE" "bench.db"%string
           /\ (e = ZeroDivisionError /\ Z.to_nat (samples args) = 0
               \/ e = FileNotFoundError "cargo"
                  /\ (exists k, fault k = Some Full.ProgramMissing)
               \/ e = UnicodeDecodeError
                  /\ exists k, fault k = Some Full.OutputUndecodable))).
Proof.
  assert (Htail : forall st2,
    environ st2 = setitem env "DATABASE" "bench.db"%string ->
    spawned st2 = (if profile args then 1 else 0) ->
    (profile args = true -> fault 0 <> Some Full.ProgramMissing) ->
    outcome
      (Proc.bind (Full.benchmarks fault (samples args)) (fun measurements =>
       Proc.bind (environ_set "DATABASE" (get env "DATABASE" "solutions.db"%string))
         (fun _ =>
       Proc.bind datetime_now (fun now =>
       Proc.bind (open_w (filename now)) (fun _ =>
       json_dump (setitem measurements "note" (Text (note args)))
         (filename now)))))) w st2
      (fun _ st =>
         Z.to_nat (samples args) <> 0
         /\ can_open w (filename (wall_clock w)) = true
         /\ environ st
            = setitem (setitem env "DATABASE" "bench.db"%string) "DATABASE"
                (get env "DATABASE" "solutions.db"%string)
         /\ (profile args = true -> fault 0 <> Some Full.ProgramMissing)
         /\ forall k, (if profile args then 1 else 0) <= k < spawned st ->
                      fault k = None)
      (fun e st =>
         (e = OSError (filename (wall_clock w))
          /\ can_open w (filename (wall_clock w)) = false
          /\ Z.to_nat (samples args) <> 0
          /\ environ st
             = setitem (setitem env "DATABASE" "bench.db"%string) "DATABASE"
                 (get env "DATABASE" "solutions.db"%string))
         \/ (environ st = setitem env "DATABASE" "bench.db"%string
             /\ (e = ZeroDivisionError /\ Z.to_nat (samples args) = 0
                 \/ e = FileNotFoundError "cargo"
                    /\ (exists k, fault k = Some Full.ProgramMissing)
                 \/ e = UnicodeDecodeError
                    /\ exists k, fault k = Some Full.OutputUndecodable)))).
  { intros st2 Henv2 Hsp2 Hprof. apply outcome_bind.
    apply (outcome_conseq _ _ _ _ _ _ _
             (benchmarks_outcome (samples args) w st2)).
    - intros d [env3 tr3 t3 sp3] (Hn & Henv & _ & Hle & Hnone).
      cbn [environ spawned] in Henv, Hle, Hnone.
      unfold outcome.
      cbv [bind environ_set datetime_now open_w emit json_dump
           environ trace ticks spawned].
      destruct (can_open w (filename (wall_clock w))) eqn:Hopen.
      + cbn [environ spawned]. rewrite Henv, Henv2.
        repeat split; auto. intros k Hk. apply Hnone. lia.
      + left. cbn [environ]. rewrite Henv, Henv2. repeat split; auto.
    - intros e st' (Henv & _ & Hwhy). right. rewrite Henv.
      split; [assumption|].
      destruct Hwhy as [H | [[-> H] | [-> (k & _ & H)]]]; eauto 6. }
  unfold Full.main.
  apply outcome_bind; unfold outcome at 1;
    cbv [print emit initial environ trace ticks spawned].
  apply outcome_bind; unfold outcome at 1; cbv [environ_get environ].
  apply outcome_bind; unfold outcome at 1;
    cbv [environ_set environ trace ticks spawned].
  apply outcome_bind.
  destruct (profile args) eqn:Hp.
  - unfold outcome at 1.
    cbv [Full.flamegraph Full.subprocess_run bind ret andb
         environ trace ticks spawned].
    destruct (fault 0) as [[|]|] eqn:F0.
    + right. split; [reflexivity|]. right. left. split; [reflexivity|eauto].
    + apply Htail; [reflexivity | reflexivity | congruence].
    + apply Htail; [reflexivity | reflexivity | congruence].
  - unfold outcome at 1. cbv [ret].
    apply Htail; [reflexivity | reflexivity | discriminate].
Qed.


End FaultyRun.

(* ================================================================== *)
(** * Properties of the run in full *)
(* ================================================================== *)

Section FullProperties.
Import Py Proc Sys Bench Spec Observe FullSpec.

Lemma runs_timed_sampling w c : forall vs t,
  runs (timed_sampling w c t vs) = solver_runs c vs.
Proof.
  induction vs as [|v vs IH]; intros t; simpl; [reflexivity|].
  rewrite runs_app, runs_timed_runs. cbn [runs]. now rewrite IH.
Qed.

Lemma dumps_timed_runs argv c : forall t, dumps (timed_runs argv t c) = [].
Proof. induction c; intros t; simpl; auto. Qed.

Lemma dumps_timed_sampling w c : forall vs t,
  dumps (timed_sampling w c t vs) = [].
Proof.
  induction vs as [|v vs IH]; intros t; simpl; [reflexivity|].
  rewrite dumps_app, dumps_timed_runs. cbn [dumps app]. apply IH.
Qed.

Lemma clocks_app tr tr' : clocks (tr ++ tr') = clocks tr ++ clocks tr'.
Proof.
  induction tr as [|e tr IH]; simpl; [reflexivity|].
  destruct e; simpl; now rewrite IH.
Qed.

Lemma clocks_timed_runs argv c : forall t,
  clocks (timed_runs argv t c) = seq t (2 * c).
Proof.
  induction c as [|c IH]; intros t; [reflexivity|].
  cbn [timed_runs clocks]. rewrite IH.
  replace (2 * S c) with (S (S (2 * c))) by lia. reflexivity.
Qed.

Lemma clocks_timed_sampling w c : forall vs t,
  clocks (timed_sampling w c t vs) = seq t (2 * c * List.length vs).
Proof.
  induction vs as [|v vs IH]; intros t; cbn [timed_sampling List.length].
  - now rewrite Nat.mul_0_r.
  - rewrite clocks_app, clocks_timed_runs. cbn [clocks]. rewrite IH.
    replace (2 * c * S (List.length vs))
      with (2 * c + 2 * c * List.length vs) by lia.
    now rewrite seq_app.
Qed.

Lemma clocks_profiling_trace p w : clocks (profiling_trace p w) = [].
Proof. now destruct p. Qed.

(** The model at work: a solver that fails with return code 1 on every run
    contributes all its samples, and one whose output does not decode ends
    the run in the first repetition. *)
Example failing_solver_runs :
  returncode (child Examples.world 0) = 1%Z
  /\ fst (Full.main Full.healthy Examples.default_args Examples.world (initial []))
     = Ok tt.
Proof. vm_compute. split; reflexivity. Qed.

Example garbled_solver_run :
  Full.main garbled Examples.default_args Examples.world (initial [])
  = (Raise UnicodeDecodeError,
     {| environ := [("DATABASE", "bench.db")]%string;
        trace := [Print (Acknowledged "No note." 3 false);
                  SetEnv "DATABASE" "bench.db";
                  Clock 0;
                  Run (solve_argv "2-10000-1-2") true];
        ticks := 1; spawned := 1 |}).
Proof. vm_compute. reflexivity. Qed.

Example no_cargo_run :
  Full.main no_cargo Examples.default_args Examples.world (initial [])
  = (Raise (FileNotFoundError "cargo"),
     {| environ := [("DATABASE", "bench.db")]%string;
        trace := [Print (Acknowledged "No note." 3 false);
                  SetEnv "DATABASE" "bench.db";
                  Clock 0];
        ticks := 1; spawned := 0 |}).
Proof. vm_compute. reflexivity. Qed.

(** C6.  When every call returns, the run with the profile flag is the run
    without it with one child process more: the profiler (cargo flamegraph
    on the binary nova, not captured) on the heavy variant "2-100000-1-2",
    started right after the override of DATABASE and before the first
    reading of the clock, that is before the first timed solver run.  All
    other child processes are captured solver runs (cargo run) on the
    variants of the benchmark set, of which the heavy variant is none.
    The profiling pass changes neither the measurements nor the outcome
    nor what is dumped. *)
Theorem C6_profiling_pass nt n w env :
  (exists rest,
     trace (snd (Full.main Full.healthy
                   {| note := nt; samples := n; profile := false |}
                   w (initial env)))
     = Print (Acknowledged nt n false) :: SetEnv "DATABASE" "bench.db" :: rest
     /\ trace (snd (Full.main Full.healthy
                      {| note := nt; samples := n; profile := true |}
                      w (initial env)))
        = Print (Acknowledged nt n true) :: SetEnv "DATABASE" "bench.db"
            :: Run ["cargo"; "flamegraph"; "--root=-E"; "--bin"; "nova"; "--";
                    "build"; "zero-by"; "--variant=2-100000-1-2";
                    "--mode=overwrite"]%string false
            :: Shown (stdout (child w 0)) (stderr (child w 0))
            :: rest
     /\ ((1 <= n)%Z ->
         exists rest',
           rest = Clock 0
                    :: Run ["cargo"; "run"; "--"; "build"; "zero-by";
                            "--variant=2-10000-1-2"; "--mode=overwrite"]%string
                         true
                    :: Clock 1 :: rest')
     /\ runs rest
        = flat_map
            (fun v => repeat (["cargo"; "run"; "--"; "build"; "zero-by";
                               ("--variant=" ++ v)%string;
                               "--mode=overwrite"]%string, true)
                        (Z.to_nat n))
            ["2-10000-1-2"; "2-10000-3-5-7-11"; "4-10000-1-2";
             "4-10000-3-5-7-11"]%string)
  /\ ~ In "2-100000-1-2"%string
          ["2-10000-1-2"; "2-10000-3-5-7-11"; "4-10000-1-2";
           "4-10000-3-5-7-11"]%string
  /\ (forall st,
        fst (Full.benchmarks Full.healthy n w
               (snd (Full.flamegraph Full.healthy "2-100000-1-2" w st)))
        = fst (Full.benchmarks Full.healthy n w st))
  /\ fst (Full.main Full.healthy
            {| note := nt; samples := n; profile := true |} w (initial env))
     = fst (Full.main Full.healthy
              {| note := nt; samples := n; profile := false |} w (initial env))
  /\ dumps (trace (snd (Full.main Full.healthy
                          {| note := nt; samples := n; profile := true |}
                          w (initial env))))
     = dumps (trace (snd (Full.main Full.healthy
                            {| note := nt; samples := n; profile := false |}
                            w (initial env)))).
Proof.
  change (flat_map _ _) with (solver_runs (Z.to_nat n) variants).
  destruct (Nat.eq_dec (Z.to_nat n) 0) as [E|E].
  - rewrite !full_main_zero by assumption.
    cbn [fst snd trace note samples profile profiling_trace dumps].
    split; [|split; [|split; [|split]]]; try reflexivity.
    + exists []. split; [reflexivity|]. split; [reflexivity|].
      split; [intros Hn; lia|]. now rewrite E, solver_runs_zero.
    + simpl. intuition discriminate.
    + intros st. now rewrite !full_benchmarks_zero.
  - rewrite !full_main_sampled by assumption.
    cbn [fst snd trace note samples profile profiling_trace app].
    split; [|split; [|split; [|split]]]; try reflexivity.
    + eexists. split; [reflexivity|]. split; [reflexivity|]. split.
      * intros _. destruct (Z.to_nat n) as [|c]; [contradiction|].
        cbn [timed_sampling variants timed_runs app]. eexists. reflexivity.
      * rewrite runs_app, runs_timed_sampling.
        destruct (can_open w (filename (wall_clock w))); cbn [runs];
          now rewrite app_nil_r.
    + simpl. intuition discriminate.
    + intros st. now rewrite !full_benchmarks_spec.
Qed.



(** X4.  Whatever goes wrong with the calls of [subprocess.run], a run
    changes no environment variable other than DATABASE.  DATABASE holds
    afterwards the value read at the start ("solutions.db" for an unset
    one) when the run completed or failed to open the output file, and is
    left at "bench.db" when the run ended with ZeroDivisionError, with a
    missing program or with output that does not decode. *)
Theorem X4_environment_after_a_run fault args w env :
  (forall k, k <> "DATABASE"%string ->
     getitem (environ (snd (Full.main fault args w (initial env)))) k
     = getitem env k)
  /\ (fst (Full.main fault args w (initial env)) = Ok tt
      \/ fst (Full.main fault args w (initial env))
         = Raise (OSError (filename (wall_clock w))) ->
      getitem (environ (snd (Full.main fault args w (initial env)))) "DATABASE"
      = Some (get env "DATABASE" "solutions.db"%string))
  /\ (fst (Full.main fault args w (initial env)) = Raise ZeroDivisionError
      \/ fst (Full.main fault args w (initial env))
         = Raise (FileNotFoundError "cargo")
      \/ fst (Full.main fault args w (initial env)) = Raise UnicodeDecodeError ->
      getitem (environ (snd (Full.main fault args w (initial env)))) "DATABASE"
      = Some "bench.db"%string).
Proof.
  pose proof (full_main_cases fault args w env) as H. unfold outcome in H.
  destruct (Full.main fault args w (initial env)) as [[[]|e] st]; cbn [fst snd].
  - destruct H as (_ & _ & -> & _).
    split; [intros k Hk; now rewrite !getitem_setitem_other|].
    split; [intros _; apply getitem_setitem_same|].
    intros [E | [E | E]]; discriminate E.
  - destruct H as [(-> & _ & _ & ->) | (-> & Hwhy)].
    + split; [intros k Hk; now rewrite !getitem_setitem_other|].
      split; [intros _; apply getitem_setitem_same|].
      intros [E | [E | E]]; discriminate E.
    + split; [intros k Hk; now rewrite getitem_setitem_other|].
      split; [|intros _; apply getitem_setitem_same].
      intros [E | E]; [discriminate E|]. injection E as ->.
      destruct Hwhy as [[E _] | [[E _] | [E _]]]; discriminate E.
Qed.

(** X7.  In a run in which every call of [subprocess.run] returns, whether
    it then completes, divides by zero or fails to open the output file,
    the clock is read exactly twice for each solver run, the readings are
    consecutive, and none is taken for the profiling pass; the script
    starts one child process for each repetition of each of the four
    variants, plus one when profiling. *)
Theorem X7_clock_readings_and_children args w env :
  ticks (snd (Full.main Full.healthy args w (initial env)))
  = 2 * (4 * Z.to_nat (samples args))
  /\ clocks (trace (snd (Full.main Full.healthy args w (initial env))))
     = seq 0 (2 * (4 * Z.to_nat (samples args)))
  /\ spawned (snd (Full.main Full.healthy args w (initial env)))
     = List.length (runs (trace (snd (Full.main Full.healthy args w (initial env)))))
  /\ List.length (runs (trace (snd (Full.main Full.healthy args w (initial env)))))
     = (if profile args then 1 else 0) + 4 * Z.to_nat (samples args).
Proof.
  assert (Hlen : List.length (solver_runs (Z.to_nat (samples args)) variants)
                 = 4 * Z.to_nat (samples args)).
  { unfold solver_runs, variants. cbn [flat_map].
    rewrite !length_app, !repeat_length. simpl. lia. }
  assert (Hp : List.length (runs (profiling_trace (profile args) w))
               = if profile args then 1 else 0)
    by now destruct (profile args).
  destruct (Nat.eq_dec (Z.to_nat (samples args)) 0) as [E|E].
  - rewrite full_main_zero by assumption.
    cbn [snd ticks spawned trace clocks runs].
    rewrite clocks_profiling_trace, Hp, E. repeat split; lia.
  - rewrite full_main_sampled by assumption.
    cbn [snd ticks spawned trace clocks runs].
    rewrite !clocks_app, !runs_app, clocks_profiling_trace,
      clocks_timed_sampling, runs_timed_sampling, !length_app, Hp, Hlen.
    assert (Hc : forall tr : list Event,
              tr = [] \/ (exists p o, tr = [Open p; Dump p o]) ->
              clocks (SetEnv "DATABASE" (get env "DATABASE" "solutions.db"%string)
                        :: tr) = []
              /\ runs (SetEnv "DATABASE" (get env "DATABASE" "solutions.db"%string)
                         :: tr) = []).
    { intros tr [-> | (p & o & ->)]; split; reflexivity. }
    destruct (Hc (if can_open w (filename (wall_clock w))
                  then [Open (filename (wall_clock w));
                        Dump (filename (wall_clock w)) (record args w)]
                  else [])) as [-> ->].
    { destruct (can_open w (filename (wall_clock w))); eauto. }
    cbn [app List.length]. rewrite app_nil_r.
    repeat split; try lia. f_equal. cbn [List.length variants]. lia.
Qed.

End FullProperties.
